(** * oerplib: the model pool and the OSV model proxy

    A shallow embedding of [oerplib/pool.py] (class [ModelPool]) and of
    [oerplib/service/osv/osv.py] (class [OSV]), with the properties of the
    data-access layer proved about it.

    Python values that travel over the RPC layer are embedded as [pyval];
    Python exceptions as [exn]; methods that talk to the server or mutate
    an object are functions in a state-and-error monad [M]. *)

From Stdlib Require Import Ascii.
From stdpp Require Import gmap strings list fin_maps pretty.

Set Warnings "-register-all".

Open Scope Z_scope.
Open Scope string_scope.

(** ** Python values *)

(** The JSON-like values exchanged with the server: [None], booleans,
    integers, strings, lists, and dicts with string keys.  (Floats are only
    ever carried around by the code and are left out.) *)
Inductive pyval : Type :=
  | VNone
  | VBool (b : bool)
  | VInt (z : Z)
  | VStr (s : string)
  | VList (l : list pyval)
  | VDict (d : gmap string pyval).

(** The exceptions the modelled code can meet.  [RPCError] is
    [oerplib.error.RPCError], [NotAllowedError] is
    [oerplib.error.NotAllowedError], [SchemaError] is what field generation
    raises on a type it does not know; the others are Python's own. *)
Inductive exn : Type :=
  | RPCError (msg : string)
  | NotAllowedError (msg : string)
  | SchemaError (field_name : string)
  | KeyError (key : string)
  | IndexError
  | TypeError
  | ValueError
  | AttributeError (attr : string)
  | StopIteration.

Inductive result (A : Type) : Type :=
  | Ok (a : A)
  | Raise (e : exn).
Arguments Ok {A} a.
Arguments Raise {A} e.

(** ** A state-and-error monad

    [M S A] is a computation over a mutable state [S] that returns an [A] or
    raises.  The state reached when an exception is raised is kept: Python
    does not undo the assignments made before a [raise]. *)
Definition M (S A : Type) : Type := S -> result A * S.

Definition ret {S A} (a : A) : M S A := fun s => (Ok a, s).

Definition raise {S A} (e : exn) : M S A := fun s => (Raise e, s).

Definition bind {S A B} (m : M S A) (k : A -> M S B) : M S B :=
  fun s =>
    match m s with
    | (Ok a, s') => k a s'
    | (Raise e, s') => (Raise e, s')
    end.

Definition get_state {S} : M S S := fun s => (Ok s, s).

Definition modify {S} (f : S -> S) : M S unit := fun s => (Ok tt, f s).

Definition lift_result {S A} (r : result A) : M S A := fun s => (r, s).

Notation "x <- m ;; k" := (bind m (fun x => k))
  (at level 100, m at next level, right associativity).
Notation "m ;;; k" := (bind m (fun _ => k))
  (at level 100, right associativity).

(** [for x in l: body x] *)
Fixpoint for_each {S A} (l : list A) (body : A -> M S unit) : M S unit :=
  match l with
  | [] => ret tt
  | x :: l' => body x ;;; for_each l' body
  end.

(** ** Python operators used by the code *)

(** Truth value of a value, as [if v:] and [v and ...] test it. *)
Definition py_truthy (v : pyval) : bool :=
  match v with
  | VNone => false
  | VBool b => b
  | VInt z => negb (Z.eqb z 0)
  | VStr s => negb (String.eqb s "")
  | VList l => match l with [] => false | _ => true end
  | VDict d => negb (bool_decide (d = ∅))
  end.

(** [a or b] *)
Definition py_or (a b : pyval) : pyval := if py_truthy a then a else b.

(** [v[0]] *)
Definition py_getitem0 (v : pyval) : result pyval :=
  match v with
  | VList (x :: _) => Ok x
  | VList [] => Raise IndexError
  | VStr (String c _) => Ok (VStr (String c ""))
  | VStr "" => Raise IndexError
  | VDict _ => Raise (KeyError "0")
  | VNone | VBool _ | VInt _ => Raise TypeError
  end.

(** [a and a[0]] *)
Definition py_and_getitem0 (a : pyval) : result pyval :=
  if py_truthy a then py_getitem0 a else Ok a.

(** [v is False] *)
Definition is_False (v : pyval) : bool :=
  match v with VBool false => true | _ => false end.

Fixpoint is_prefix (p s : string) : bool :=
  match p, s with
  | "", _ => true
  | String a p', String b s' => Ascii.eqb a b && is_prefix p' s'
  | String _ _, "" => false
  end.

Fixpoint is_substring (p s : string) : bool :=
  is_prefix p s || match s with "" => false | String _ s' => is_substring p s' end.

(** [k in v] for a string [k]: key membership on a dict, element
    membership on a list, substring test on a string; the other values are
    not iterable. *)
Definition py_contains (k : string) (v : pyval) : result bool :=
  match v with
  | VDict d => Ok (bool_decide (is_Some (d !! k)))
  | VList l =>
      Ok (existsb (fun x => match x with VStr s => String.eqb s k | _ => false end) l)
  | VStr s => Ok (is_substring k s)
  | VNone | VBool _ | VInt _ => Raise TypeError
  end.

(** [v[k]] for a string [k]. *)
Definition py_getitem (k : string) (v : pyval) : result pyval :=
  match v with
  | VDict d => match d !! k with Some x => Ok x | None => Raise (KeyError k) end
  | _ => Raise TypeError
  end.

(** [d.update(v)] on a dict [d].  A dict argument overrides the entries of
    [d]; a value that is not iterable raises [TypeError]; an empty sequence
    changes nothing.  (Python also accepts a non-empty sequence when each
    of its elements is itself a pair; the RPC layer decodes a struct to a
    dict and never hands one over, and the embedding rejects it.) *)
Definition py_dict_update (d : gmap string pyval) (v : pyval)
  : result (gmap string pyval) :=
  match v with
  | VDict d' => Ok (d' ∪ d)
  | VList [] | VStr "" => Ok d
  | VList _ | VStr _ => Raise ValueError
  | VNone | VBool _ | VInt _ => Raise TypeError
  end.

(** [s.replace(a, b)] for single characters. *)
Fixpoint replace_char (a b : Ascii.ascii) (s : string) : string :=
  match s with
  | "" => ""
  | String c s' => String (if Ascii.eqb c a then b else c) (replace_char a b s')
  end.

(** [d.keys()] and [d.values()] and [d.items()]: one fixed order per dict. *)
Definition dict_items {A} (d : gmap string A) : list (string * A) := map_to_list d.
Definition dict_keys {A} (d : gmap string A) : list string := (dict_items d).*1.
Definition dict_values {A} (d : gmap string A) : list A := (dict_items d).*2.

(** ** The model pool ([oerplib/pool.py]) *)

Module Pool.

(** Python objects have an identity; the pool stores references.  A
    reference is the number the object got when it was created. *)
Definition ref := nat.

(** Modelled from the spec: [factory.Factory] (the model proxy the pool
    caches) is not among the sources.  What the pool uses of it is kept: the
    entity name it was built for, [osv['class']] (the record type generated
    for it, a fresh class per proxy since an explicit refresh "replaces the
    whole schema and therefore the whole generated Record type"), and the
    records it holds, which [clear()] empties and [keys()] lists. *)
Record factory : Type := {
  fac_name : string;
  fac_class : ref;
  fac_keys : list Z;
}.

Record pool : Type := {
  heap : gmap ref factory;
  next_ref : ref;
  _factories_by_osv_name : gmap string ref;
  _factories_by_osv_class : gmap ref ref;
}.

(** [ModelPool.__init__] *)
Definition init : pool :=
  {| heap := ∅; next_ref := 0%nat;
     _factories_by_osv_name := ∅; _factories_by_osv_class := ∅ |}.

Definition set_by_name (f : gmap string ref -> gmap string ref) (p : pool) : pool :=
  {| heap := heap p; next_ref := next_ref p;
     _factories_by_osv_name := f (_factories_by_osv_name p);
     _factories_by_osv_class := _factories_by_osv_class p |}.

Definition set_by_class (f : gmap ref ref -> gmap ref ref) (p : pool) : pool :=
  {| heap := heap p; next_ref := next_ref p;
     _factories_by_osv_name := _factories_by_osv_name p;
     _factories_by_osv_class := f (_factories_by_osv_class p) |}.

Definition set_heap (f : gmap ref factory -> gmap ref factory) (p : pool) : pool :=
  {| heap := f (heap p); next_ref := next_ref p;
     _factories_by_osv_name := _factories_by_osv_name p;
     _factories_by_osv_class := _factories_by_osv_class p |}.

Section WithServer.

(** Whether building a proxy for an entity fails (its schema introspection
    is a remote call), and with which exception. *)
Variable introspection_error : string -> option exn.

(** Modelled from the spec: the constructor [factory.Factory(self.oerp,
    osv_name)], not among the sources.  It introspects the schema, which
    may fail, and returns a new object with a new generated class. *)
Definition Factory (osv_name : string) : M pool ref :=
  match introspection_error osv_name with
  | Some e => raise e
  | None =>
      fun p =>
        let cls := next_ref p in
        let facto := S cls in
        (Ok facto,
         {| heap := <[facto := {| fac_name := osv_name; fac_class := cls;
                                  fac_keys := [] |}]> (heap p);
            next_ref := S facto;
            _factories_by_osv_name := _factories_by_osv_name p;
            _factories_by_osv_class := _factories_by_osv_class p |})
  end.

(** [facto.osv['class']] *)
Definition osv_class (facto : ref) : M pool ref :=
  p <- get_state ;;
  match heap p !! facto with
  | Some f => ret (fac_class f)
  | None => raise (AttributeError "osv")
  end.

(** [self._factories_by_osv_name[osv_name]] *)
Definition by_name_getitem (osv_name : string) : M pool ref :=
  p <- get_state ;;
  match _factories_by_osv_name p !! osv_name with
  | Some facto => ret facto
  | None => raise (KeyError osv_name)
  end.

(** [ModelPool.get] *)
Definition get (osv_name : string) (refresh : bool) : M pool ref :=
  p <- get_state ;;
  (if negb (bool_decide (is_Some (_factories_by_osv_name p !! osv_name))) then
     facto <- Factory osv_name ;;
     modify (set_by_name <[osv_name := facto]>) ;;;
     cls <- osv_class facto ;;
     modify (set_by_class <[cls := facto]>)
   else if refresh then
     facto <- Factory osv_name ;;
     modify (set_by_name <[osv_name := facto]>)
   else ret tt) ;;;
  by_name_getitem osv_name.

(** [ModelPool.get_by_class] *)
Definition get_by_class (osv : ref) : M pool ref :=
  p <- get_state ;;
  match _factories_by_osv_class p !! osv with
  | Some facto => ret facto
  | None => raise (KeyError (pretty osv))
  end.

(** Modelled from the spec: [Factory.clear()], not among the sources.  The
    proxy forgets its records; the object stays. *)
Definition clear (facto : ref) : M pool unit :=
  modify (set_heap (alter (fun f => {| fac_name := fac_name f;
                                       fac_class := fac_class f;
                                       fac_keys := [] |}) facto)).

(** [ModelPool.__delitem__] *)
Definition __delitem__ (osv_name : string) : M pool unit :=
  facto <- by_name_getitem osv_name ;;
  clear facto ;;;
  modify (set_by_name (delete osv_name)).

(** [ModelPool.__getitem__] *)
Definition __getitem__ (osv_name : string) : M pool ref := get osv_name false.

(** [ModelPool.__setitem__] *)
Definition __setitem__ (osv_name : string) (value : ref) : M pool unit :=
  raise (NotAllowedError "Operation not supported").

(** [ModelPool.__len__] *)
Definition __len__ (p : pool) : nat := size (_factories_by_osv_name p).

(** [ModelPool.__iter__] *)
Definition __iter__ (p : pool) : list string := dict_keys (_factories_by_osv_name p).

End WithServer.

(** What holds of every pool that [get] and [__delitem__] have worked on:
    the proxy cached under a name was built for that name; a class in the
    class index leads to the proxy that was generated with it; and every
    object there is was numbered before [next_ref]. *)
Definition pool_inv (p : pool) : Prop :=
  (forall (osv_name : string) (facto : ref),
     _factories_by_osv_name p !! osv_name = Some facto ->
     exists f : factory, heap p !! facto = Some f /\ fac_name f = osv_name)
  /\ (forall cls facto : ref,
        _factories_by_osv_class p !! cls = Some facto ->
        exists f : factory, heap p !! facto = Some f /\ fac_class f = cls)
  /\ (forall (facto : ref) (f : factory),
        heap p !! facto = Some f ->
        (facto < next_ref p)%nat /\ (fac_class f < next_ref p)%nat).

End Pool.

(** ** The model proxy ([oerplib/service/osv/osv.py]) *)

Module Osv.

(** *** The RPC collaborator *)

(** The two entry points of the connection object: [execute(model, method,
    *args)] and [execute_kw(model, method, args, kwargs)]. *)
Inductive call : Type :=
  | Execute (model method : string) (args : list pyval)
  | ExecuteKw (model method : string) (args : list pyval)
              (kwargs : gmap string pyval).

(** What the code reads of the connection object [oerp]:
    [config['compatible']], [config['auto_context']] and [context]. *)
Record oerp : Type := {
  compatible : bool;
  auto_context : bool;
  oerp_context : pyval;
}.

(** *** Field descriptors and the generated record class *)

(** The kinds of descriptor (classes of the [fields] module).  The code
    names one of them, [fields.Many2OneField], the reference-single kind. *)
Inductive field_kind : Type :=
  | ScalarField
  | TextField
  | NumericField
  | BooleanField
  | DateField
  | Many2OneField
  | ReferenceManyField
  | ComputedField.

Global Instance field_kind_eq_dec : EqDecision field_kind.
Proof. solve_decision. Defined.

Record field : Type := {
  name : string;
  kind : field_kind;
  label : string;
  read_only : bool;
}.

(** [cls.__osv__ = {'name': ..., 'columns': ...}] *)
Record osv_info : Type := {
  osv_name : string;
  columns : gmap string field;
}.

(** The class built by [type(cls_name, (browse.BrowseRecord,), {})], with
    the attributes the code sets on it.  [descriptors] are the class
    attributes installed by [setattr(obj.__class__, field.name, field)]. *)
Record browse_class : Type := {
  cls_name : string;
  __oerp__ : oerp;
  __osv__ : osv_info;
  __slots__ : list string;
  descriptors : gmap string field;
}.

(** [obj.__data__] *)
Record obj_data : Type := {
  context : pyval;
  raw_data : pyval;
  fields_updated : list string;
}.

(** A record object.  [id] is its id, [None] for a draft that has none;
    [attrs] holds its instance attributes (the [_<field>] values);
    [__class__] is its class.  The class travels with the record: nothing
    in the modelled code reads [descriptors] back, so the copy the proxy
    holds is not kept in step. *)
Record browse_record : Type := {
  id : option Z;
  __data__ : obj_data;
  attrs : gmap string pyval;
  __class__ : browse_class;
}.

(** The model proxy. *)
Record OSV : Type := {
  _oerp : oerp;
  _name : string;
  _browse_class : browse_class;
}.

(** [OSV.fields_reserved] *)
Definition fields_reserved : list string :=
  ["id"; "__oerp__"; "__osv__"; "__data__"].

(** The state a record method runs in: the record it was handed, and the
    calls made to the server so far (oldest first). *)
Record state : Type := {
  obj : browse_record;
  trace : list call;
}.

Definition in_world {A} (m : M (list call) A) : M state A :=
  fun st =>
    let (r, tr) := m (trace st) in
    (r, {| obj := obj st; trace := tr |}).

Definition set_obj (f : browse_record -> browse_record) (st : state) : state :=
  {| obj := f (obj st); trace := trace st |}.

Definition set_data (f : obj_data -> obj_data) (o : browse_record) : browse_record :=
  {| id := id o; __data__ := f (__data__ o); attrs := attrs o;
     __class__ := __class__ o |}.

(** [obj_data['context'] = v] *)
Definition set_context (v : pyval) : M state unit :=
  modify (set_obj (set_data (fun d =>
    {| context := v; raw_data := raw_data d;
       fields_updated := fields_updated d |}))).

(** [obj_data['raw_data'] = v] *)
Definition set_raw_data (v : pyval) : M state unit :=
  modify (set_obj (set_data (fun d =>
    {| context := context d; raw_data := v;
       fields_updated := fields_updated d |}))).

(** [obj_data['fields_updated'] = l] *)
Definition set_fields_updated (l : list string) : M state unit :=
  modify (set_obj (set_data (fun d =>
    {| context := context d; raw_data := raw_data d;
       fields_updated := l |}))).

(** [setattr(obj, attr, v)] *)
Definition setattr (attr : string) (v : pyval) : M state unit :=
  modify (set_obj (fun o =>
    {| id := id o; __data__ := __data__ o; attrs := <[attr := v]> (attrs o);
       __class__ := __class__ o |})).

(** [setattr(obj.__class__, attr, f)] *)
Definition setattr_class (attr : string) (f : field) : M state unit :=
  modify (set_obj (fun o =>
    {| id := id o; __data__ := __data__ o; attrs := attrs o;
       __class__ :=
         {| cls_name := cls_name (__class__ o);
            __oerp__ := __oerp__ (__class__ o);
            __osv__ := __osv__ (__class__ o);
            __slots__ := __slots__ (__class__ o);
            descriptors := <[attr := f]> (descriptors (__class__ o)) |} |})).

(** [if obj.id:] *)
Definition id_truthy (i : option Z) : bool :=
  match i with Some z => negb (Z.eqb z 0) | None => false end.

(** [obj.id] as a value sent to the server. *)
Definition id_value (i : option Z) : pyval :=
  match i with Some z => VInt z | None => VNone end.

(** ["_{0}".format(field_name)] *)
Definition private (field_name : string) : string := "_" ++ field_name.

(** [obj.id] as [format] prints it. *)
Definition id_format (i : option Z) : string :=
  match i with Some z => pretty z | None => "None" end.

(** [u"There is no '{osv_name}' record with ID {obj_id}.".format(...)] *)
Definition no_record_message (osv_name : string) (obj_id : option Z) : string :=
  "There is no '" ++ osv_name ++ "' record with ID " ++ id_format obj_id ++ ".".

(** Modelled from the spec: [browse.BrowseRecord] is not among the sources.
    [self._browse_class(ids)] makes a record of the generated class with
    the id given, no remote call, and nothing loaded yet. *)
Definition new_record (cls : browse_class) (i : option Z) : browse_record :=
  {| id := i;
     __data__ := {| context := VNone; raw_data := VDict ∅; fields_updated := [] |};
     attrs := ∅;
     __class__ := cls |}.

Section WithServer.

(** The server is a black box: what it answers to a call may depend on the
    calls it got before. *)
Variable server : list call -> call -> result pyval.

(** The table of the [fields] module, from the type string the server
    declares to the kind of descriptor; [None] for a type it does not
    know. *)
Variable classify : string -> option field_kind.

(** [oerp.execute(model, method, *args)] *)
Definition execute (model method : string) (args : list pyval)
  : M (list call) pyval :=
  fun tr => let c := Execute model method args in (server tr c, (tr ++ [c])%list).

(** [oerp.execute_kw(model, method, args, kwargs)] *)
Definition execute_kw (model method : string) (args : list pyval)
    (kwargs : gmap string pyval) : M (list call) pyval :=
  fun tr => let c := ExecuteKw model method args kwargs in (server tr c, (tr ++ [c])%list).

(** Modelled from the spec: [fields.generate_field] is not among the
    sources.  It "maps the server's declared type string to one of the
    recognized kinds" and "unrecognized type strings must fail with a
    SchemaError"; the descriptor takes its name from the field name, its
    label from ['string'] and its read-only flag from ['readonly']. *)
Definition generate_field (field_name : string) (field_data : pyval)
  : result field :=
  match field_data with
  | VDict d =>
      match d !! "type" with
      | Some (VStr t) =>
          match classify t with
          | Some k =>
              Ok {| name := field_name;
                    kind := k;
                    label := match d !! "string" with
                             | Some (VStr s) => s
                             | _ => ""
                             end;
                    read_only := match d !! "readonly" with
                                 | Some v => py_truthy v
                                 | None => false
                                 end |}
          | None => Raise (SchemaError field_name)
          end
      | _ => Raise (SchemaError field_name)
      end
  | _ => Raise (SchemaError field_name)
  end.

(** [{'type': 'text', 'string': 'Name', 'readonly': True}] *)
Definition name_field_data : pyval :=
  VDict (<["type" := VStr "text"]>
        (<["string" := VStr "Name"]>
        (<["readonly" := VBool true]> ∅))).

(** The loop of [_generate_browse_class] over [fields_get.items()]. *)
Fixpoint generate_fields (items : list (string * pyval))
    (cls_fields : gmap string field) : result (gmap string field) :=
  match items with
  | [] => Ok cls_fields
  | (field_name, field_data) :: rest =>
      if bool_decide (field_name ∈ fields_reserved) then
        generate_fields rest cls_fields
      else
        match generate_field field_name field_data with
        | Ok f => generate_fields rest (<[field_name := f]> cls_fields)
        | Raise e => Raise e
        end
  end.

(** [OSV._generate_browse_class], on the [_oerp] and [_name] that
    [__init__] has set. *)
Definition _generate_browse_class (oerp_ : oerp) (name_ : string)
  : M (list call) browse_class :=
  fields_get <- execute name_ "fields_get" [] ;;
  let cls_name_ := replace_char "."%char "_"%char name_ in
  items <- lift_result
             match fields_get with
             | VDict d => Ok (dict_items d)
             | _ => Raise (AttributeError "items")
             end ;;
  cls_fields <- lift_result (generate_fields items ∅) ;;
  cls_fields <-
    (if negb (bool_decide (is_Some (cls_fields !! "name"))) then
       f <- lift_result (generate_field "name" name_field_data) ;;
       ret (<["name" := f]> cls_fields)
     else ret cls_fields) ;;
  ret {| cls_name := cls_name_;
         __oerp__ := oerp_;
         __osv__ := {| osv_name := name_; columns := cls_fields |};
         __slots__ := (["__oerp__"; "__osv__"; "__dict__"; "__data__"]
                         ++ dict_keys cls_fields)%list;
         descriptors := ∅ |}.

(** [OSV.__init__] *)
Definition __init__ (oerp_ : oerp) (osv_name_ : string) : M (list call) OSV :=
  cls <- _generate_browse_class oerp_ osv_name_ ;;
  ret {| _oerp := oerp_; _name := osv_name_; _browse_class := cls |}.

(** The closure [rpc_method] that [OSV.__getattr__] returns for [method],
    called with [*args] and [**kwargs]. *)
Definition rpc_method (self : OSV) (method : string) (args : list pyval)
    (kwargs : gmap string pyval) : M (list call) pyval :=
  if compatible (_oerp self) then
    if negb (bool_decide (kwargs = ∅)) then
      raise (RPCError "Named parameters are not supported in compatibility mode")
    else
      execute (osv_name (__osv__ (_browse_class self))) method args
  else
    let kwargs' :=
      if auto_context (_oerp self)
         && negb (bool_decide (is_Some (kwargs !! "context")))
      then <["context" := oerp_context (_oerp self)]> kwargs
      else kwargs in
    execute_kw (osv_name (__osv__ (_browse_class self))) method args kwargs'.

(** The body of the loop of [_reset] for one descriptor. *)
Definition reset_field (f : field) : M state unit :=
  st <- get_state ;;
  let raw := raw_data (__data__ (obj st)) in
  present <- lift_result (py_contains (name f) raw) ;;
  if (present : bool) then
    v <- lift_result (py_getitem (name f) raw) ;;
    setattr (private (name f)) v ;;;
    setattr_class (name f) f
  else ret tt.

(** [OSV._reset] *)
Definition _reset (self : OSV) : M state unit :=
  set_fields_updated [] ;;;
  for_each (dict_values (columns (__osv__ (_browse_class self)))) reset_field.

(** [self.read([obj.id], None, context)] or, outside compatibility mode,
    [self.read([obj.id], None, context=context)]. *)
Definition call_read (self : OSV) (i : option Z) (context_ : pyval)
  : M (list call) pyval :=
  if compatible (_oerp self) then
    rpc_method self "read" [VList [id_value i]; VNone; context_] ∅
  else
    rpc_method self "read" [VList [id_value i]; VNone] {["context" := context_]}.

(** [self.default_get(keys, context)] or
    [self.default_get(keys, context=context)]. *)
Definition call_default_get (self : OSV) (keys : list string) (context_ : pyval)
  : M (list call) pyval :=
  if compatible (_oerp self) then
    rpc_method self "default_get" [VList (VStr <$> keys); context_] ∅
  else
    rpc_method self "default_get" [VList (VStr <$> keys)] {["context" := context_]}.

(** [for field_name in keys: raw_data[field_name] = False], from [{}]. *)
Definition all_False (keys : list string) : gmap string pyval :=
  foldl (fun d field_name => <[field_name := VBool false]> d) ∅ keys.

(** [OSV._refresh] *)
Definition _refresh (self : OSV) (context_ : pyval) : M state unit :=
  let context_ := py_or context_ (VDict ∅) in
  set_context context_ ;;;
  st <- get_state ;;
  let o := obj st in
  (if id_truthy (id o) then
     rows <- in_world (call_read self (id o) context_) ;;
     raw <- lift_result (py_getitem0 rows) ;;
     set_raw_data raw ;;;
     if is_False raw then
       raise (RPCError (no_record_message (osv_name (__osv__ (__class__ o)))
                          (id o)))
     else ret tt
   else
     let keys := dict_keys (columns (__osv__ (__class__ o))) in
     default_get <- in_world (call_default_get self keys context_) ;;
     set_raw_data (VDict ∅) ;;;
     set_raw_data (VDict (all_False keys)) ;;;
     d <- lift_result (py_dict_update (all_False keys) default_get) ;;
     set_raw_data (VDict d)) ;;;
  _reset self.

(** The body of the loop of [_write_record] for one dirty field name:
    nothing to send ([None]) when the name is not in [raw_data], else the
    value to put in [vals]. *)
Definition write_value (self : OSV) (o : browse_record) (field_name : string)
  : result (option pyval) :=
  match py_contains field_name (raw_data (__data__ o)) with
  | Raise e => Raise e
  | Ok false => Ok None
  | Ok true =>
      match columns (__osv__ (_browse_class self)) !! field_name with
      | None => Raise (KeyError field_name)
      | Some f =>
          match attrs o !! private field_name with
          | None => Raise (AttributeError (private field_name))
          | Some field_value =>
              if decide (kind f = Many2OneField) then
                match py_and_getitem0 field_value with
                | Ok v => Ok (Some v)
                | Raise e => Raise e
                end
              else Ok (Some field_value)
          end
      end
  end.

(** The loop of [_write_record] over [obj_data['fields_updated']], which
    fills [vals]. *)
Fixpoint write_vals (self : OSV) (o : browse_record) (names : list string)
    (vals : gmap string pyval) : result (gmap string pyval) :=
  match names with
  | [] => Ok vals
  | field_name :: rest =>
      match write_value self o field_name with
      | Raise e => Raise e
      | Ok None => write_vals self o rest vals
      | Ok (Some v) => write_vals self o rest (<[field_name := v]> vals)
      end
  end.

(** [self.write([obj.id], vals, context)] or
    [self.write([obj.id], vals, context=context)]. *)
Definition call_write (self : OSV) (i : option Z) (vals : gmap string pyval)
    (context_ : pyval) : M (list call) pyval :=
  if compatible (_oerp self) then
    rpc_method self "write" [VList [id_value i]; VDict vals; context_] ∅
  else
    rpc_method self "write" [VList [id_value i]; VDict vals]
      {["context" := context_]}.

(** [OSV._write_record].  The [except error.Error as exc: raise exc]
    clause re-raises what it catches, so a failing call simply
    propagates. *)
Definition _write_record (self : OSV) (context_ : pyval) : M state pyval :=
  st <- get_state ;;
  let o := obj st in
  vals <- lift_result (write_vals self o (fields_updated (__data__ o)) ∅) ;;
  res <- in_world (call_write self (id o) vals context_) ;;
  _refresh self context_ ;;;
  ret res.

(** [OSV._unlink_record] *)
Definition _unlink_record (self : OSV) (context_ : pyval) : M state pyval :=
  st <- get_state ;;
  in_world
    (if compatible (_oerp self) then
       rpc_method self "unlink" [VList [id_value (id (obj st))]; context_] ∅
     else
       rpc_method self "unlink" [VList [id_value (id (obj st))]]
         {["context" := context_]}).

(** What [browse] is given: one id, or a list (whose elements are again
    handed to [browse], one at a time). *)
Inductive ids : Type :=
  | Id (i : option Z)
  | Ids (l : list ids).

(** A generator object made by [_browse_generator]: the proxy and the
    context it closes over, and the ids it has not reached yet.  A
    generator that has finished has none left. *)
Record generator : Type := {
  gen_self : OSV;
  gen_ids : list ids;
  gen_context : pyval;
}.

Inductive browsed : Type :=
  | Record_ (o : browse_record)
  | Generator (g : generator).

(** [OSV._browse_generator]: calling it runs none of its body. *)
Definition _browse_generator (self : OSV) (l : list ids) (context_ : pyval)
  : generator :=
  {| gen_self := self; gen_ids := l; gen_context := context_ |}.

(** [OSV.browse] *)
Definition browse (self : OSV) (i : ids) (context_ : pyval)
  : M (list call) browsed :=
  match i with
  | Ids l => ret (Generator (_browse_generator self l context_))
  | Id i =>
      fun tr =>
        let (r, st) :=
          _refresh self context_
            {| obj := new_record (_browse_class self) i; trace := tr |} in
        (match r with
         | Ok _ => Ok (Record_ (obj st))
         | Raise e => Raise e
         end, trace st)
  end.

(** [next(g)]: the body of [_browse_generator] runs up to its next
    [yield].  With no id left the generator stops; an exception raised by
    [browse] leaves through [next] and finishes the generator. *)
Definition next (g : generator) (tr : list call)
  : result browsed * generator * list call :=
  match gen_ids g with
  | [] => (Raise StopIteration, g, tr)
  | o_id :: rest =>
      match browse (gen_self g) o_id (gen_context g) tr with
      | (Ok b, tr') =>
          (Ok b, _browse_generator (gen_self g) rest (gen_context g), tr')
      | (Raise e, tr') =>
          (Raise e, _browse_generator (gen_self g) [] (gen_context g), tr')
      end
  end.

(** [n] calls of [next] in a row: what each returned or raised, and the
    generator and the trace after the last. *)
Fixpoint pull (n : nat) (g : generator) (tr : list call)
  : list (result browsed) * generator * list call :=
  match n with
  | O => ([], g, tr)
  | S n' =>
      let '(r, g', tr') := next g tr in
      let '(rs, g'', tr'') := pull n' g' tr' in
      (r :: rs, g'', tr'')
  end.

(** [OSV.__getitem__] *)
Definition __getitem__ (self : OSV) (obj_id : ids) : M (list call) browsed :=
  browse self obj_id VNone.

End WithServer.

(** The single call that [_refresh] sends for a record with an id, in
    either calling convention. *)
Definition read_call (self : OSV) (i : option Z) (context_ : pyval) : call :=
  if compatible (_oerp self) then
    Execute (osv_name (__osv__ (_browse_class self))) "read"
      [VList [id_value i]; VNone; context_]
  else
    ExecuteKw (osv_name (__osv__ (_browse_class self))) "read"
      [VList [id_value i]; VNone] {["context" := context_]}.

(** The single call that [_refresh] sends for a draft. *)
Definition default_get_call (self : OSV) (keys : list string)
    (context_ : pyval) : call :=
  if compatible (_oerp self) then
    Execute (osv_name (__osv__ (_browse_class self))) "default_get"
      [VList (VStr <$> keys); context_]
  else
    ExecuteKw (osv_name (__osv__ (_browse_class self))) "default_get"
      [VList (VStr <$> keys)] {["context" := context_]}.

(** The call that [_write_record] sends. *)
Definition write_call (self : OSV) (i : option Z) (vals : gmap string pyval)
    (context_ : pyval) : call :=
  if compatible (_oerp self) then
    Execute (osv_name (__osv__ (_browse_class self))) "write"
      [VList [id_value i]; VDict vals; context_]
  else
    ExecuteKw (osv_name (__osv__ (_browse_class self))) "write"
      [VList [id_value i]; VDict vals] {["context" := context_]}.

(** The call that [_refresh] sends for a record: a [read] when it has an
    id, a [default_get] when it has none. *)
Definition refresh_call (self : OSV) (o : browse_record) (context_ : pyval)
  : call :=
  if id_truthy (id o) then read_call self (id o) (py_or context_ (VDict ∅))
  else default_get_call self (dict_keys (columns (__osv__ (__class__ o))))
         (py_or context_ (VDict ∅)).

(** The call that [_unlink_record] sends. *)
Definition unlink_call (self : OSV) (i : option Z) (context_ : pyval) : call :=
  if compatible (_oerp self) then
    Execute (osv_name (__osv__ (_browse_class self))) "unlink"
      [VList [id_value i]; context_]
  else
    ExecuteKw (osv_name (__osv__ (_browse_class self))) "unlink"
      [VList [id_value i]] {["context" := context_]}.

(** The instance attributes after the loop of [_reset] has gone through
    the descriptors [l] with [raw_data] the dict [d]: each descriptor whose
    name is a key of [d] has set [_<name>] to the value under it. *)
Definition load_attrs (d : gmap string pyval) (l : list field)
    (acc : gmap string pyval) : gmap string pyval :=
  foldl (fun m f => match d !! name f with
                    | Some v => <[private (name f) := v]> m
                    | None => m
                    end) acc l.

(** The class attributes after the same loop: each such descriptor has
    been installed under its name. *)
Definition load_descriptors (d : gmap string pyval) (l : list field)
    (acc : gmap string field) : gmap string field :=
  foldl (fun m f => match d !! name f with
                    | Some _ => <[name f := f]> m
                    | None => m
                    end) acc l.

(** The values on which [k in v] raises [TypeError]. *)
Definition not_iterable (v : pyval) : bool :=
  match v with
  | VNone | VBool _ | VInt _ => true
  | VStr _ | VList _ | VDict _ => false
  end.


End Osv.

(** ** A concrete entity, server and records

    The entity [res.partner] of a small server: its remote schema has the
    reserved [id] and a reference-single field [partner_id], and no field
    called [name]. *)

Module Fixtures.
Import Osv.

Definition classify (t : string) : option field_kind :=
  if String.eqb t "text" then Some TextField
  else if String.eqb t "char" then Some ScalarField
  else if String.eqb t "integer" then Some NumericField
  else if String.eqb t "many2one" then Some Many2OneField
  else None.

Definition field_data (t lbl : string) : pyval :=
  VDict (<["type" := VStr t]> (<["string" := VStr lbl]> ∅)).

Definition partner_schema : gmap string pyval :=
  <["id" := field_data "integer" "ID"]>
  (<["partner_id" := field_data "many2one" "Partner"]> ∅).

Definition method_of (c : call) : string :=
  match c with
  | Execute _ m _ => m
  | ExecuteKw _ m _ _ => m
  end.

(** A server that answers [read], [write] and [default_get] as given. *)
Definition server_of (read_ write_ default_get_ : result pyval)
  : list call -> call -> result pyval :=
  fun _ c =>
    let m := method_of c in
    if String.eqb m "fields_get" then Ok (VDict partner_schema)
    else if String.eqb m "read" then read_
    else if String.eqb m "write" then write_
    else if String.eqb m "default_get" then default_get_
    else Ok (VBool true).

(** The row the server holds for record 42: its own fields, so no
    [name]. *)
Definition partner_row_dict : gmap string pyval :=
  <["id" := VInt 42]>
  (<["partner_id" := VList [VInt 7; VStr "Acme Corp"]]> ∅).

Definition partner_row : pyval := VDict partner_row_dict.

(** The record is there. *)
Definition server_live : list call -> call -> result pyval :=
  server_of (Ok (VList [partner_row])) (Ok (VBool true)) (Ok (VDict ∅)).

(** The record is gone: [read] answers [[False]]. *)
Definition server_gone : list call -> call -> result pyval :=
  server_of (Ok (VList [VBool false])) (Ok (VBool true)) (Ok (VDict ∅)).

(** [read] answers one empty row, [[{}]]. *)
Definition server_empty_row : list call -> call -> result pyval :=
  server_of (Ok (VList [VDict ∅])) (Ok (VBool true)) (Ok (VDict ∅)).

(** [read] answers no row at all, [[]]. *)
Definition server_no_row : list call -> call -> result pyval :=
  server_of (Ok (VList [])) (Ok (VBool true)) (Ok (VDict ∅)).


Definition std_oerp : oerp :=
  {| compatible := false; auto_context := true; oerp_context := VDict ∅ |}.

Definition compat_oerp : oerp :=
  {| compatible := true; auto_context := false; oerp_context := VDict ∅ |}.

Definition name_field : field :=
  {| name := "name"; kind := TextField; label := "Name"; read_only := true |}.

Definition partner_id_field : field :=
  {| name := "partner_id"; kind := Many2OneField; label := "Partner";
     read_only := false |}.

Definition partner_columns : gmap string field :=
  <["name" := name_field]> (<["partner_id" := partner_id_field]> ∅).

Definition partner_class (o : oerp) : browse_class :=
  {| cls_name := "res_partner";
     __oerp__ := o;
     __osv__ := {| osv_name := "res.partner"; columns := partner_columns |};
     __slots__ := ["__oerp__"; "__osv__"; "__dict__"; "__data__"; "name";
                   "partner_id"];
     descriptors := ∅ |}.

(** The proxy [OSV(oerp, 'res.partner')]. *)
Definition partner_osv (o : oerp) : OSV :=
  {| _oerp := o; _name := "res.partner"; _browse_class := partner_class o |}.

(** Record 42 with [partner_id] edited to [(9, "Other")] and not yet
    written. *)
Definition dirty_record (o : oerp) : browse_record :=
  {| id := Some 42;
     __data__ := {| context := VDict ∅; raw_data := partner_row;
                    fields_updated := ["partner_id"] |};
     attrs := <["_partner_id" := VList [VInt 9; VStr "Other"]]> ∅;
     __class__ := partner_class o |}.

(** The same record with a second dirty name, [note], that [raw_data] does
    not know. *)
Definition dirty_record_unknown (o : oerp) : browse_record :=
  {| id := Some 42;
     __data__ := {| context := VDict ∅; raw_data := partner_row;
                    fields_updated := ["note"; "partner_id"] |};
     attrs := <["_partner_id" := VList [VInt 9; VStr "Other"]]> ∅;
     __class__ := partner_class o |}.

(** Record 42 as [browse] has just made it, before its first refresh. *)
Definition fresh_state (o : oerp) (i : option Z) : state :=
  {| obj := new_record (partner_class o) i; trace := [] |}.

(** The dirty record, before any call. *)
Definition dirty_state (o : oerp) : state :=
  {| obj := dirty_record o; trace := [] |}.


(** The server cannot be reached: every call of a record method fails. *)
Definition server_down : list call -> call -> result pyval :=
  server_of (Raise (RPCError "Connection refused"))
    (Raise (RPCError "Connection refused"))
    (Raise (RPCError "Connection refused")).

(** [default_get] gives a default for [partner_id] and none for [name]. *)
Definition server_defaults : list call -> call -> result pyval :=
  server_of (Ok (VList [partner_row])) (Ok (VBool true))
    (Ok (VDict (<["partner_id" := VList [VInt 7; VStr "Acme Corp"]]> ∅))).

(** The dirty record after a refresh that found it gone: [raw_data] is
    [False]. *)
Definition gone_record (o : oerp) : browse_record :=
  {| id := Some 42;
     __data__ := {| context := VDict ∅; raw_data := VBool false;
                    fields_updated := ["partner_id"] |};
     attrs := <["_partner_id" := VList [VInt 9; VStr "Other"]]> ∅;
     __class__ := partner_class o |}.

(** A server on which the entity [no.such.model] cannot be introspected. *)
Definition introspection (osv_name : string) : option exn :=
  if String.eqb osv_name "no.such.model" then
    Some (RPCError "Object no.such.model doesn't exist")
  else None.

(** The pool after [get('res.partner')]. *)
Definition partner_pool : Pool.pool :=
  snd (Pool.get introspection "res.partner" false Pool.init).

End Fixtures.

(** * Properties *)

(** Unfolds the monad so that a run of a method can be followed step by
    step. *)
Ltac unfold_monad :=
  unfold bind, ret, raise, get_state, modify, lift_result in *.

(** ** The model pool *)

Section PoolFacts.
Import Pool.

Variable introspection_error : string -> option exn.

(** A name that is cached is served from the cache, and the pool is left
    as it is. *)
Lemma get_cached (p : pool) (osv_name : string) (facto : ref) :
  _factories_by_osv_name p !! osv_name = Some facto ->
  get introspection_error osv_name false p = (Ok facto, p).
Proof.
  intros Hc. unfold Pool.get, by_name_getitem. unfold_monad.
  rewrite Hc. rewrite bool_decide_eq_true_2 by eauto. simpl.
  now rewrite Hc.
Qed.

(** Whatever [get] returns is what the name index then holds. *)
Lemma get_returns_cached (p p' : pool) (osv_name : string) (refresh : bool)
    (facto : ref) :
  get introspection_error osv_name refresh p = (Ok facto, p') ->
  _factories_by_osv_name p' !! osv_name = Some facto.
Proof.
  unfold Pool.get, by_name_getitem, Factory, osv_class, set_by_name, set_by_class.
  unfold_monad.
  destruct (bool_decide _) eqn:Hd; simpl.
  - destruct refresh.
    + destruct (introspection_error osv_name); simpl; [discriminate|].
      rewrite lookup_insert_eq. intros [= <- <-]. simpl.
      apply lookup_insert_eq.
    + destruct (_ !! osv_name) eqn:Hl; intros [= <- <-]; done.
  - destruct (introspection_error osv_name); simpl; [discriminate|].
    rewrite !lookup_insert_eq. simpl. rewrite lookup_insert_eq.
    intros [= <- <-]. simpl. apply lookup_insert_eq.
Qed.

(** X1.  When [get] without [refresh] has returned a proxy, a second such
    call returns the same proxy object and leaves the pool as it is. *)
Theorem get_twice (p p' : pool) (osv_name : string) (facto : ref) :
  get introspection_error osv_name false p = (Ok facto, p') ->
  get introspection_error osv_name false p' = (Ok facto, p').
Proof. intros H. apply get_cached. eapply get_returns_cached, H. Qed.

(** With [refresh=True] on a cached name a new proxy object is made and
    put in the name index; the class index is not touched. *)
Lemma get_refresh_cached (p : pool) (osv_name : string) (old : ref) :
  _factories_by_osv_name p !! osv_name = Some old ->
  introspection_error osv_name = None ->
  get introspection_error osv_name true p =
    (Ok (S (next_ref p)),
     {| heap := <[S (next_ref p) :=
                    {| fac_name := osv_name; fac_class := next_ref p;
                       fac_keys := [] |}]> (heap p);
        next_ref := S (S (next_ref p));
        _factories_by_osv_name :=
          <[osv_name := S (next_ref p)]> (_factories_by_osv_name p);
        _factories_by_osv_class := _factories_by_osv_class p |}).
Proof.
  intros Hc He.
  unfold Pool.get, by_name_getitem, Factory, set_by_name. unfold_monad.
  rewrite bool_decide_eq_true_2 by eauto. simpl.
  rewrite He. simpl. now rewrite lookup_insert_eq.
Qed.

(** C10 (amended).  Deleting a cached name from the pool succeeds, removes
    the name from the name index only, and leaves the class index as it
    was: [get_by_class] answers after the deletion as it did before, so a
    class that led to the evicted proxy still leads to it. *)
Theorem delitem_keeps_class_index (p : pool) (osv_name : string) (facto : ref) :
  _factories_by_osv_name p !! osv_name = Some facto ->
  let p' := snd (__delitem__ osv_name p) in
  fst (__delitem__ osv_name p) = Ok tt
  /\ _factories_by_osv_name p' = delete osv_name (_factories_by_osv_name p)
  /\ _factories_by_osv_class p' = _factories_by_osv_class p
  /\ (forall cls : ref,
        _factories_by_osv_class p !! cls = Some facto ->
        get_by_class cls p' = (Ok facto, p'))
  /\ (forall cls : ref,
        fst (get_by_class cls p') = fst (get_by_class cls p)
        /\ snd (get_by_class cls p') = p').
Proof.
  intros Hc.
  unfold __delitem__, by_name_getitem, clear, get_by_class, set_heap, set_by_name.
  unfold_monad. rewrite Hc. simpl.
  split; [reflexivity|]. split; [reflexivity|]. split; [reflexivity|].
  split.
  - intros cls Hcls. now rewrite Hcls.
  - intros cls. now destruct (_factories_by_osv_class p !! cls).
Qed.

End PoolFacts.

(** The witness of [delitem_keeps_class_index]: the pool after one
    [get('res.partner')], from which the name is then deleted. *)
Lemma delitem_keeps_class_index_witness :
  let p := snd (Pool.get (fun _ => None) "res.partner" false Pool.init) in
  let p' := snd (Pool.__delitem__ "res.partner" p) in
  Pool._factories_by_osv_name p !! "res.partner" = Some 1%nat
  /\ Pool._factories_by_osv_class p !! 0%nat = Some 1%nat
  /\ Pool._factories_by_osv_name p' !! "res.partner" = None
  /\ Pool.get_by_class 0%nat p' = (Ok 1%nat, p').
Proof.
  intros p p'.
  assert (Hn : Pool._factories_by_osv_name p !! "res.partner" = Some 1%nat)
    by reflexivity.
  assert (Hc : Pool._factories_by_osv_class p !! 0%nat = Some 1%nat)
    by reflexivity.
  destruct (delitem_keeps_class_index p "res.partner" 1%nat Hn)
    as (_ & Hdel & _ & Hget & _).
  split; [exact Hn|]. split; [exact Hc|].
  split; [|exact (Hget 0%nat Hc)].
  fold p' in Hdel. rewrite Hdel. apply lookup_delete_eq.
Defined.

(** C10, counterexample.  [get('res.partner')], then
    [get('res.partner', refresh=True)], then the name is deleted.  The
    proxy evicted is object 3, the one the refresh cached; its record type
    is class 2, which the refresh never put in the class index:
    [get_by_class] of it raises [KeyError], after the deletion as before
    it. *)
Lemma delitem_after_refresh_class_missing :
  let no_error := fun _ : string => @None exn in
  let p1 := snd (Pool.get no_error "res.partner" false Pool.init) in
  let p2 := snd (Pool.get no_error "res.partner" true p1) in
  let p3 := snd (Pool.__delitem__ "res.partner" p2) in
  Pool._factories_by_osv_name p2 !! "res.partner" = Some 3%nat
  /\ Pool.fac_class <$> Pool.heap p2 !! 3%nat = Some 2%nat
  /\ fst (Pool.__delitem__ "res.partner" p2) = Ok tt
  /\ Pool._factories_by_osv_name p3 !! "res.partner" = None
  /\ Pool.get_by_class 2%nat p2 = (Raise (KeyError "2"), p2)
  /\ Pool.get_by_class 2%nat p3 = (Raise (KeyError "2"), p3).
Proof. vm_compute. repeat split. Qed.

(** The witness of [get_twice]: the empty pool, asked twice for
    [res.partner]. *)
Lemma get_twice_witness :
  let no_error := fun _ : string => @None exn in
  let p1 := snd (Pool.get no_error "res.partner" false Pool.init) in
  Pool.get no_error "res.partner" false Pool.init = (Ok 1%nat, p1)
  /\ Pool.get no_error "res.partner" false p1 = (Ok 1%nat, p1).
Proof.
  intros no_error p1.
  assert (H : Pool.get no_error "res.partner" false Pool.init = (Ok 1%nat, p1))
    by reflexivity.
  split; [exact H|].
  exact (get_twice no_error Pool.init p1 "res.partner" 1%nat H).
Defined.

(** C1.  The pool on the failing input: [get('res.partner')], then
    [get('res.partner', refresh=True)].  The first proxy is object 1 with
    class 0, and a second plain [get] returns the same object.  The refresh
    returns a distinct proxy, object 3 with class 2, and puts it in the name
    index; the class index is left as it was, so class 0 still leads to the
    replaced proxy and class 2 leads nowhere. *)
Theorem get_refresh_leaves_class_index :
  let no_error := fun _ : string => @None exn in
  let p1 := snd (Pool.get no_error "res.partner" false Pool.init) in
  let p2 := snd (Pool.get no_error "res.partner" true p1) in
  fst (Pool.get no_error "res.partner" false Pool.init) = Ok 1%nat
  /\ Pool.get no_error "res.partner" false p1 = (Ok 1%nat, p1)
  /\ fst (Pool.get no_error "res.partner" true p1) = Ok 3%nat
  /\ Pool._factories_by_osv_name p2 !! "res.partner" = Some 3%nat
  /\ Pool.fac_class <$> Pool.heap p2 !! 3%nat = Some 2%nat
  /\ Pool._factories_by_osv_class p2 = Pool._factories_by_osv_class p1
  /\ Pool.get_by_class 0%nat p2 = (Ok 1%nat, p2)
  /\ Pool.get_by_class 2%nat p2 = (Raise (KeyError "2"), p2).
Proof. vm_compute. repeat split. Qed.

(** ** The model proxy *)

Section OsvFacts.
Import Osv.

Variable server : list call -> call -> result pyval.

(** *** Dynamic forwarding *)

Lemma call_read_run (self : OSV) (i : option Z) (ctx : pyval) (tr : list call) :
  call_read server self i ctx tr =
    (server tr (read_call self i ctx), (tr ++ [read_call self i ctx])%list).
Proof.
  unfold call_read, read_call, rpc_method, execute, execute_kw.
  destruct (compatible (_oerp self)).
  - now rewrite bool_decide_eq_true_2 by done.
  - rewrite lookup_singleton_eq.
    rewrite (bool_decide_eq_true_2 (is_Some _)) by eauto.
    now rewrite andb_false_r.
Qed.

Lemma call_default_get_run (self : OSV) (keys : list string) (ctx : pyval)
    (tr : list call) :
  call_default_get server self keys ctx tr =
    (server tr (default_get_call self keys ctx),
     (tr ++ [default_get_call self keys ctx])%list).
Proof.
  unfold call_default_get, default_get_call, rpc_method, execute, execute_kw.
  destruct (compatible (_oerp self)).
  - now rewrite bool_decide_eq_true_2 by done.
  - rewrite lookup_singleton_eq.
    rewrite (bool_decide_eq_true_2 (is_Some _)) by eauto.
    now rewrite andb_false_r.
Qed.

Lemma call_write_run (self : OSV) (i : option Z) (vals : gmap string pyval)
    (ctx : pyval) (tr : list call) :
  call_write server self i vals ctx tr =
    (server tr (write_call self i vals ctx),
     (tr ++ [write_call self i vals ctx])%list).
Proof.
  unfold call_write, write_call, rpc_method, execute, execute_kw.
  destruct (compatible (_oerp self)).
  - now rewrite bool_decide_eq_true_2 by done.
  - rewrite lookup_singleton_eq.
    rewrite (bool_decide_eq_true_2 (is_Some _)) by eauto.
    now rewrite andb_false_r.
Qed.

(** C6.  In compatibility mode a forwarded method called with a keyword
    argument raises the error "Named parameters are not supported in
    compatibility mode" and the trace of remote calls is left as it was;
    called with none it sends exactly one positional [execute] call and
    returns what the server answers. *)
Theorem rpc_method_compatible (self : OSV) (method : string)
    (args : list pyval) (kwargs : gmap string pyval) (tr : list call) :
  compatible (_oerp self) = true ->
  (kwargs <> ∅ ->
   rpc_method server self method args kwargs tr =
     (Raise (RPCError "Named parameters are not supported in compatibility mode"),
      tr))
  /\ (kwargs = ∅ ->
      let c := Execute (osv_name (__osv__ (_browse_class self))) method args in
      rpc_method server self method args kwargs tr =
        (server tr c, (tr ++ [c])%list)).
Proof.
  intros Hc. unfold rpc_method. rewrite Hc. split; intros Hk.
  - now rewrite bool_decide_eq_false_2.
  - now rewrite bool_decide_eq_true_2.
Qed.

(** *** Reset *)

Lemma reset_field_frame (f : field) (st : state) :
  let st' := snd (reset_field f st) in
  __data__ (obj st') = __data__ (obj st)
  /\ id (obj st') = id (obj st)
  /\ __osv__ (__class__ (obj st')) = __osv__ (__class__ (obj st))
  /\ trace st' = trace st.
Proof.
  unfold reset_field, setattr, setattr_class, set_obj. unfold_monad.
  destruct (py_contains _ _) as [[|]|e]; simpl; auto.
  destruct (py_getitem _ _); simpl; auto.
Qed.

Lemma for_each_reset_frame (l : list field) (st : state) :
  let st' := snd (for_each l reset_field st) in
  __data__ (obj st') = __data__ (obj st)
  /\ id (obj st') = id (obj st)
  /\ __osv__ (__class__ (obj st')) = __osv__ (__class__ (obj st))
  /\ trace st' = trace st.
Proof.
  revert st. induction l as [|f l IH]; intros st; simpl; [auto|].
  unfold bind.
  pose proof (reset_field_frame f st) as Hf. simpl in Hf.
  destruct (reset_field f st) as [[[]|e] st1]; simpl in *; [|exact Hf].
  specialize (IH st1). simpl in IH.
  destruct IH as (-> & -> & -> & ->). exact Hf.
Qed.

(** [_reset] empties [fields_updated], whether it completes or not, and
    changes nothing else of the record's data, its id, its schema or the
    trace. *)
Lemma reset_frame (self : OSV) (st : state) :
  let st' := snd (_reset self st) in
  fields_updated (__data__ (obj st')) = []
  /\ raw_data (__data__ (obj st')) = raw_data (__data__ (obj st))
  /\ context (__data__ (obj st')) = context (__data__ (obj st))
  /\ id (obj st') = id (obj st)
  /\ __osv__ (__class__ (obj st')) = __osv__ (__class__ (obj st))
  /\ trace st' = trace st.
Proof.
  unfold _reset, set_fields_updated, set_obj, set_data. unfold_monad.
  match goal with |- context [for_each ?l reset_field ?s] =>
    pose proof (for_each_reset_frame l s) as Hf end.
  simpl in *. destruct Hf as (Hd & -> & -> & ->). rewrite Hd. simpl.
  repeat split.
Qed.
(** *** Refresh *)

(** [_refresh] on a record that has an id, step by step. *)
Lemma refresh_id_path (self : OSV) (ctx : pyval) (st : state) :
  id_truthy (id (obj st)) = true ->
  let ctx' := py_or ctx (VDict ∅) in
  let c := read_call self (id (obj st)) ctx' in
  let st1 := {| obj := obj (snd (set_context ctx' st));
                trace := (trace st ++ [c])%list |} in
  _refresh server self ctx st =
    match server (trace st) c with
    | Raise e => (Raise e, st1)
    | Ok rows =>
        match py_getitem0 rows with
        | Raise e => (Raise e, st1)
        | Ok raw =>
            if is_False raw then
              (Raise (RPCError
                        (no_record_message
                           (osv_name (__osv__ (__class__ (obj st))))
                           (id (obj st)))),
               snd (set_raw_data raw st1))
            else _reset self (snd (set_raw_data raw st1))
        end
    end.
Proof.
  intros Hid. simpl. unfold _refresh. unfold_monad. simpl. rewrite Hid.
  unfold in_world. simpl. rewrite call_read_run.
  destruct (server _ _) as [rows|e]; simpl; [|reflexivity].
  destruct (py_getitem0 rows) as [raw|e]; simpl; [|reflexivity].
  destruct (is_False raw); reflexivity.
Qed.

(** [_refresh] on a draft, step by step. *)
Lemma refresh_draft_path (self : OSV) (ctx : pyval) (st : state) :
  id_truthy (id (obj st)) = false ->
  let ctx' := py_or ctx (VDict ∅) in
  let keys := dict_keys (columns (__osv__ (__class__ (obj st)))) in
  let c := default_get_call self keys ctx' in
  let st1 := {| obj := obj (snd (set_context ctx' st));
                trace := (trace st ++ [c])%list |} in
  _refresh server self ctx st =
    match server (trace st) c with
    | Raise e => (Raise e, st1)
    | Ok default_get =>
        match py_dict_update (all_False keys) default_get with
        | Raise e => (Raise e, snd (set_raw_data (VDict (all_False keys)) st1))
        | Ok d => _reset self (snd (set_raw_data (VDict d) st1))
        end
    end.
Proof.
  intros Hid. simpl. unfold _refresh. unfold_monad. simpl. rewrite Hid.
  unfold in_world. simpl. rewrite call_default_get_run.
  destruct (server _ _) as [dg|e]; simpl; [|reflexivity].
  destruct (py_dict_update _ dg) as [d|e]; simpl; reflexivity.
Qed.

(** A refresh sends exactly one call to the server, whatever comes of
    it. *)
Lemma refresh_trace (self : OSV) (ctx : pyval) (st : state) :
  trace (snd (_refresh server self ctx st)) =
    (trace st ++ [refresh_call self (obj st) ctx])%list.
Proof.
  unfold refresh_call.
  destruct (id_truthy (id (obj st))) eqn:Hid.
  - rewrite refresh_id_path by exact Hid.
    destruct (server _ _) as [rows|e]; [|reflexivity].
    destruct (py_getitem0 rows) as [raw|e]; [|reflexivity].
    destruct (is_False raw); [reflexivity|].
    now destruct (reset_frame self
      (snd (set_raw_data raw
         {| obj := obj (snd (set_context (py_or ctx (VDict ∅)) st));
            trace := (trace st ++ [read_call self (id (obj st))
                                     (py_or ctx (VDict ∅))])%list |})))
      as (_ & _ & _ & _ & _ & ->).
  - rewrite refresh_draft_path by exact Hid.
    destruct (server _ _) as [dg|e]; [|reflexivity].
    destruct (py_dict_update _ dg) as [d|e]; [|reflexivity].
    match goal with |- context [_reset self ?s] =>
      now destruct (reset_frame self s) as (_ & _ & _ & _ & _ & ->) end.
Qed.

(** The only errors [_reset] can raise are Python's own, from looking a
    field name up in a [raw_data] that is not a dict. *)
Lemma reset_field_errors (f : field) (st : state) (e : exn) :
  fst (reset_field f st) = Raise e ->
  e = TypeError \/ exists k : string, e = KeyError k.
Proof.
  unfold reset_field, setattr, setattr_class. unfold_monad.
  destruct (raw_data (__data__ (obj st))) as [| | | | |d]; simpl;
    try (intros [= <-]; now left); try destruct (existsb _ _);
    try destruct (is_substring _ _); simpl; try discriminate;
    try (intros [= <-]; now left).
  case_bool_decide as Hk; simpl; [|discriminate].
  destruct (d !! name f); simpl; [discriminate|].
  intros [= <-]. right. eauto.
Qed.

Lemma reset_errors (self : OSV) (st : state) (e : exn) :
  fst (_reset self st) = Raise e ->
  e = TypeError \/ exists k : string, e = KeyError k.
Proof.
  unfold _reset, set_fields_updated. unfold_monad.
  generalize (set_obj (set_data (fun d : obj_data =>
                {| context := context d; raw_data := raw_data d;
                   fields_updated := [] |})) st).
  induction (dict_values (columns (__osv__ (_browse_class self))))
    as [|f l IH]; intros s; simpl; [discriminate|].
  unfold bind.
  destruct (reset_field f s) as [[[]|e'] s'] eqn:Hf; simpl.
  - apply IH.
  - intros [= <-]. apply (reset_field_errors f s).
    now rewrite Hf.
Qed.

(** C2 (amended).  For a record with a non-zero id whose read is answered:
    when the first element of the answer is exactly [False], the refresh
    raises the error "There is no '<entity>' record with ID <id>."; by then
    [raw_data] holds [False], and [fields_updated] and the field values are
    as they were.  Any other first element, empty or not, becomes
    [raw_data] and that error is not raised.  An answer that has no first
    element raises Python's own error and [raw_data] is as it was.  In each
    case one call was sent. *)
Theorem refresh_False_row_raises (self : OSV) (ctx : pyval) (st : state)
    (z : Z) (rows : pyval) :
  id (obj st) = Some z ->
  z <> 0 ->
  server (trace st) (read_call self (Some z) (py_or ctx (VDict ∅))) = Ok rows ->
  let r := _refresh server self ctx st in
  (py_getitem0 rows = Ok (VBool false) ->
   fst r = Raise (RPCError ("There is no '"
                            ++ osv_name (__osv__ (__class__ (obj st)))
                            ++ "' record with ID " ++ pretty z ++ "."))
   /\ raw_data (__data__ (obj (snd r))) = VBool false
   /\ fields_updated (__data__ (obj (snd r)))
      = fields_updated (__data__ (obj st))
   /\ attrs (obj (snd r)) = attrs (obj st))
  /\ (forall raw : pyval,
        py_getitem0 rows = Ok raw ->
        raw <> VBool false ->
        raw_data (__data__ (obj (snd r))) = raw
        /\ forall msg : string, fst r <> Raise (RPCError msg))
  /\ (forall e : exn,
        py_getitem0 rows = Raise e ->
        fst r = Raise e
        /\ raw_data (__data__ (obj (snd r))) = raw_data (__data__ (obj st)))
  /\ trace (snd r) =
       (trace st ++ [read_call self (Some z) (py_or ctx (VDict ∅))])%list.
Proof.
  intros Hid Hz Hrows. simpl.
  assert (id_truthy (id (obj st)) = true) as Ht.
  { rewrite Hid. simpl. apply negb_true_iff. now apply Z.eqb_neq. }
  split; [|split; [|split]].
  - intros Hrow. rewrite refresh_id_path by exact Ht.
    rewrite Hid, Hrows, Hrow. simpl. unfold no_record_message. simpl.
    repeat split.
  - intros raw Hrow Hraw. rewrite refresh_id_path by exact Ht.
    rewrite Hid, Hrows, Hrow.
    assert (is_False raw = false) as ->.
    { destruct raw as [|[|]| | | |]; try reflexivity. contradiction. }
    match goal with |- context [_reset self ?s] =>
      destruct (reset_frame self s) as (_ & -> & _);
      pose proof (reset_errors self s) as Herr end.
    split; [reflexivity|]. intros msg Hmsg.
    destruct (Herr _ Hmsg) as [?|[k ?]]; discriminate.
  - intros e Hrow. rewrite refresh_id_path by exact Ht.
    rewrite Hid, Hrows, Hrow. simpl. split; reflexivity.
  - rewrite refresh_trace. unfold refresh_call. now rewrite Ht, Hid.
Qed.

Lemma all_False_lookup (keys : list string) (k : string) :
  k ∈ keys -> all_False keys !! k = Some (VBool false).
Proof.
  unfold all_False.
  assert (forall acc : gmap string pyval, (k ∈ keys \/ acc !! k = Some (VBool false)) ->
            foldl (fun d field_name => <[field_name := VBool false]> d) acc keys
              !! k = Some (VBool false)) as H.
  { induction keys as [|a keys IH]; intros acc Hk; simpl.
    - destruct Hk as [Hk|Hk]; [inversion Hk | exact Hk].
    - apply IH. destruct (decide (a = k)) as [->|Hne].
      + right. apply lookup_insert_eq.
      + destruct Hk as [Hk|Hk].
        * left. apply elem_of_cons in Hk as [Hk|Hk]; [congruence | exact Hk].
        * right. now rewrite lookup_insert_ne. }
  intros Hk. apply H. now left.
Qed.

Lemma elem_of_dict_keys {A} (m : gmap string A) (k : string) :
  k ∈ dict_keys m <-> is_Some (m !! k).
Proof.
  unfold dict_keys, dict_items. rewrite list_elem_of_fmap. split.
  - intros [[k' v] [-> Hin]]. apply elem_of_map_to_list in Hin. eauto.
  - intros [v Hv]. exists (k, v). split; [reflexivity|].
    now apply elem_of_map_to_list.
Qed.

Lemma py_dict_update_keeps (d d' : gmap string pyval) (v : pyval) (k : string) :
  py_dict_update d v = Ok d' -> is_Some (d !! k) -> is_Some (d' !! k).
Proof.
  destruct v as [| | |s|l|dv]; simpl; try discriminate.
  - destruct s; [|discriminate]. now intros [= <-].
  - destruct l; [|discriminate]. now intros [= <-].
  - intros [= <-] [x Hx]. destruct (dv !! k) as [y|] eqn:Hy.
    + exists y. now apply lookup_union_Some_l.
    + exists x. rewrite lookup_union_r; auto.
Qed.


(** C3 (amended).  When a refresh completes, [fields_updated] is empty.
    On the draft path [raw_data] is a dict with an entry for every field of
    the record's schema (the synthetic [name] field, being in the schema,
    included); on the path of a record with an id, [raw_data] is the first
    element of what the server's read answered, as it came. *)
Theorem refresh_completes (self : OSV) (ctx : pyval) (st : state) :
  fst (_refresh server self ctx st) = Ok tt ->
  let st' := snd (_refresh server self ctx st) in
  fields_updated (__data__ (obj st')) = []
  /\ (id_truthy (id (obj st)) = false ->
      exists d : gmap string pyval,
        raw_data (__data__ (obj st')) = VDict d
        /\ forall k : string,
             is_Some (columns (__osv__ (__class__ (obj st))) !! k) ->
             is_Some (d !! k))
  /\ (id_truthy (id (obj st)) = true ->
      exists rows : pyval,
        server (trace st) (read_call self (id (obj st)) (py_or ctx (VDict ∅)))
          = Ok rows
        /\ py_getitem0 rows = Ok (raw_data (__data__ (obj st')))).
Proof.
  simpl. destruct (id_truthy (id (obj st))) eqn:Hid.
  - rewrite refresh_id_path by exact Hid.
    destruct (server _ _) as [rows|e] eqn:Hs; [|discriminate].
    destruct (py_getitem0 rows) as [raw|e] eqn:Hr; [|discriminate].
    destruct (is_False raw); [discriminate|].
    match goal with |- context [_reset self ?s] =>
      destruct (reset_frame self s) as (Hfu & Hraw & _) end.
    intros _. split; [exact Hfu|]. split; [discriminate|].
    intros _. exists rows. split; [reflexivity|].
    rewrite Hraw. exact Hr.
  - rewrite refresh_draft_path by exact Hid.
    destruct (server _ _) as [dg|e] eqn:Hs; [|discriminate].
    destruct (py_dict_update _ dg) as [d|e] eqn:Hu; [|discriminate].
    match goal with |- context [_reset self ?s] =>
      destruct (reset_frame self s) as (Hfu & Hraw & _) end.
    intros _. split; [exact Hfu|]. split; [|discriminate].
    intros _. exists d. split; [exact Hraw|].
    intros k Hk. eapply py_dict_update_keeps; [exact Hu|].
    rewrite all_False_lookup; [eauto|]. now apply elem_of_dict_keys.
Qed.

(** *** Write *)

(** What the loop of [_write_record] leaves in [vals] under a name, when
    it completes: the value computed for the name if it is dirty and known
    to [raw_data], else what [vals] held before. *)
Lemma write_vals_lookup (self : OSV) (o : browse_record) (names : list string) :
  forall (acc payload : gmap string pyval) (k : string),
    write_vals self o names acc = Ok payload ->
    (k ∉ names -> payload !! k = acc !! k)
    /\ (k ∈ names ->
        (exists v, write_value self o k = Ok (Some v) /\ payload !! k = Some v)
        \/ (write_value self o k = Ok None /\ payload !! k = acc !! k)).
Proof.
  induction names as [|a names IH]; intros acc payload k; simpl.
  - intros [= <-]. split; [reflexivity|]. intros Hk. inversion Hk.
  - destruct (write_value self o a) as [[v|]|e] eqn:Ha; [| |discriminate];
      intros Hrun; destruct (IH _ _ k Hrun) as [Hout Hin];
      (split; [intros Hk; apply not_elem_of_cons in Hk as [Hne Hk]
              |intros Hk; apply elem_of_cons in Hk]).
    + rewrite Hout by exact Hk. now rewrite lookup_insert_ne.
    + destruct (decide (k ∈ names)) as [Hk'|Hk'].
      * destruct (Hin Hk') as [Hv|[Hn Hp]]; [now left|].
        destruct (decide (a = k)) as [->|Hne]; [congruence|].
        right. split; [exact Hn|]. now rewrite Hp, lookup_insert_ne.
      * destruct Hk as [->|Hk]; [|contradiction].
        left. exists v. split; [exact Ha|].
        rewrite Hout by exact Hk'. apply lookup_insert_eq.
    + now apply Hout.
    + destruct (decide (k ∈ names)) as [Hk'|Hk'].
      * now apply Hin.
      * destruct Hk as [->|Hk]; [|contradiction].
        right. split; [exact Ha|]. now apply Hout.
Qed.

(** C9 (amended).  With [raw_data] a dict, a dirty name that is not one of
    its keys is passed over: the loop runs exactly as on the list of dirty
    names without it, so no error comes of it; and a payload that gets
    built has entries only for names that are dirty and keys of
    [raw_data].  Whatever [raw_data] is, a payload that gets built has
    entries only for dirty names found in [raw_data].  With [raw_data] a
    value that is no container and a dirty name, looking the name up raises
    [TypeError] and no payload is built. *)
Theorem write_vals_skips_unknown (self : OSV) (o : browse_record)
    (names : list string) :
  (forall d : gmap string pyval,
     raw_data (__data__ o) = VDict d ->
     write_vals self o names ∅ =
       write_vals self o (filter (fun k => is_Some (d !! k)) names) ∅
     /\ (forall payload : gmap string pyval,
           write_vals self o names ∅ = Ok payload ->
           forall k : string,
             is_Some (payload !! k) -> k ∈ names /\ is_Some (d !! k)))
  /\ (forall payload : gmap string pyval,
        write_vals self o names ∅ = Ok payload ->
        forall k : string,
          is_Some (payload !! k) ->
          k ∈ names /\ py_contains k (raw_data (__data__ o)) = Ok true)
  /\ (not_iterable (raw_data (__data__ o)) = true ->
      names <> [] ->
      write_vals self o names ∅ = Raise TypeError).
Proof.
  assert (forall payload : gmap string pyval,
            write_vals self o names ∅ = Ok payload ->
            forall k : string,
              is_Some (payload !! k) ->
              k ∈ names /\ py_contains k (raw_data (__data__ o)) = Ok true)
    as Hgen.
  { intros payload Hrun k Hk.
    destruct (write_vals_lookup self o names _ _ k Hrun) as [Hout Hin].
    destruct (decide (k ∈ names)) as [Hk'|Hk'].
    - split; [exact Hk'|].
      destruct (Hin Hk') as [(v & Hv & _)|[_ Hp]].
      + unfold write_value in Hv.
        destruct (py_contains k (raw_data (__data__ o))) as [[|]|e];
          [reflexivity | discriminate | discriminate].
      + rewrite Hp, lookup_empty in Hk. now destruct Hk.
    - rewrite Hout, lookup_empty in Hk by exact Hk'. now destruct Hk. }
  split; [|split; [exact Hgen|]].
  - intros d Hraw. split.
    + clear Hgen. generalize (∅ : gmap string pyval).
      induction names as [|a names IH]; intros acc; [reflexivity|].
      rewrite filter_cons. case_decide as Ha; simpl.
      * destruct (write_value self o a) as [[v|]|e]; auto.
      * unfold write_value. rewrite Hraw. simpl.
        rewrite bool_decide_eq_false_2 by exact Ha. apply IH.
    + intros payload Hrun k Hk.
      destruct (Hgen payload Hrun k Hk) as [Hin Hc]. split; [exact Hin|].
      rewrite Hraw in Hc. simpl in Hc. injection Hc as Hc.
      now apply bool_decide_eq_true in Hc.
  - intros Hraw Hnames. destruct names as [|k names]; [contradiction|].
    simpl. unfold write_value.
    destruct (raw_data (__data__ o)); try discriminate; reflexivity.
Qed.

(** C5.  For a dirty reference-single field known to [raw_data] whose
    value is the pair [(id, label)], the payload holds the id alone. *)
Theorem write_vals_many2one (self : OSV) (o : browse_record)
    (names : list string) (payload : gmap string pyval) (k : string)
    (f : field) (rid lbl : pyval) :
  write_vals self o names ∅ = Ok payload ->
  k ∈ names ->
  py_contains k (raw_data (__data__ o)) = Ok true ->
  columns (__osv__ (_browse_class self)) !! k = Some f ->
  kind f = Many2OneField ->
  attrs o !! private k = Some (VList [rid; lbl]) ->
  payload !! k = Some rid.
Proof.
  intros Hrun Hk Hin Hf Hkind Hval.
  destruct (write_vals_lookup self o names _ _ k Hrun) as [_ H].
  assert (write_value self o k = Ok (Some rid)) as Hv.
  { unfold write_value. rewrite Hin, Hf, Hval.
    now rewrite decide_True by exact Hkind. }
  destruct (H Hk) as [(v & Hv' & Hp)|[Hn _]]; congruence.
Qed.



(** X2.  [_reset] empties [fields_updated]; it leaves [raw_data], the
    context, the id and the schema as they were, and it sends nothing to
    the server. *)
Theorem reset_clears_dirty_only (self : OSV) (st : state) :
  let st' := snd (_reset self st) in
  fields_updated (__data__ (obj st')) = []
  /\ raw_data (__data__ (obj st')) = raw_data (__data__ (obj st))
  /\ context (__data__ (obj st')) = context (__data__ (obj st))
  /\ id (obj st') = id (obj st)
  /\ __osv__ (__class__ (obj st')) = __osv__ (__class__ (obj st))
  /\ trace st' = trace st.
Proof. exact (reset_frame self st). Qed.

(** X3.  A second [_reset] right after a first changes neither [raw_data]
    nor [fields_updated], and still nothing has been sent. *)
Theorem reset_twice (self : OSV) (st : state) :
  let st1 := snd (_reset self st) in
  let st2 := snd (_reset self st1) in
  raw_data (__data__ (obj st2)) = raw_data (__data__ (obj st1))
  /\ fields_updated (__data__ (obj st2)) = fields_updated (__data__ (obj st1))
  /\ trace st2 = trace st.
Proof.
  simpl.
  destruct (reset_frame self st) as (Hfu1 & _ & _ & _ & _ & Htr1).
  destruct (reset_frame self (snd (_reset self st)))
    as (Hfu2 & Hraw2 & _ & _ & _ & Htr2).
  simpl in *. rewrite Hraw2, Hfu2, Hfu1, Htr2, Htr1. repeat split.
Qed.

(** X4.  A refresh sends exactly one call to the server, a [read] for a
    record with an id and a [default_get] for a draft, whether it completes
    or raises. *)
Theorem refresh_sends_one_call (self : OSV) (ctx : pyval) (st : state) :
  trace (snd (_refresh server self ctx st)) =
    (trace st ++ [refresh_call self (obj st) ctx])%list.
Proof. exact (refresh_trace self ctx st). Qed.

(** *** Browse *)

(** Browsing one id sends exactly the one call of its refresh. *)
Lemma browse_id_trace (self : OSV) (i : option Z) (ctx : pyval) (tr : list call) :
  snd (browse server self (Id i) ctx tr) =
    (tr ++ [refresh_call self (new_record (_browse_class self) i) ctx])%list.
Proof.
  simpl.
  pose proof (refresh_trace self ctx
                {| obj := new_record (_browse_class self) i; trace := tr |}) as H.
  destruct (_refresh _ _ _ _) as [r st]. exact H.
Qed.

(** [browse] sends at most one call. *)
Lemma browse_trace (self : OSV) (i : ids) (ctx : pyval) (tr : list call) :
  exists calls : list call,
    snd (browse server self i ctx tr) = (tr ++ calls)%list
    /\ (length calls <= 1)%nat.
Proof.
  destruct i as [i|l].
  - eexists. split; [apply browse_id_trace|]. simpl. lia.
  - exists []. split; [simpl; now rewrite app_nil_r|]. simpl. lia.
Qed.

(** One [next] sends at most one call and leaves no more ids than there
    were, less the one it took. *)
Lemma next_trace (g : generator) (tr : list call) :
  exists calls : list call,
    snd (next server g tr) = (tr ++ calls)%list
    /\ (length calls <= 1)%nat
    /\ (length calls + length (gen_ids (snd (fst (next server g tr))))
        <= length (gen_ids g))%nat.
Proof.
  unfold next. destruct (gen_ids g) as [|o_id rest] eqn:Hg.
  - exists []. simpl. rewrite app_nil_r, Hg. simpl. repeat split; lia.
  - destruct (browse_trace (gen_self g) o_id (gen_context g) tr)
      as (calls & Htr & Hlen).
    destruct (browse _ _ _ _ _) as [[b|e] tr']; simpl in *;
      exists calls; repeat split; auto; lia.
Qed.

Lemma pull_trace (n : nat) :
  forall (g : generator) (tr : list call),
  exists calls : list call,
    snd (pull server n g tr) = (tr ++ calls)%list
    /\ (length calls <= n)%nat
    /\ (length calls <= length (gen_ids g))%nat.
Proof.
  induction n as [|n IH]; intros g tr; simpl.
  - exists []. simpl. rewrite app_nil_r. repeat split; lia.
  - destruct (next_trace g tr) as (c1 & H1 & Hl1 & Hr1).
    destruct (next server g tr) as [[r g'] tr']. simpl in *.
    destruct (IH g' tr') as (c2 & H2 & Hl2 & Hr2).
    destruct (pull server n g' tr') as [[rs g''] tr'']. simpl in *.
    exists (c1 ++ c2)%list. subst tr' tr''.
    rewrite <- app_assoc, length_app. repeat split; lia.
Qed.

(** C7.  [browse] on a list of ids returns a generator and sends nothing.
    A [next] on the generator is a [browse] of the first id left: same
    outcome, same calls, made then; [browse] of one id sends exactly one
    call.  However many times [next] is called, the calls sent are no more
    than the ids of the list.  On the empty list the generator stops at
    once, and nothing is ever sent. *)
Theorem browse_list_is_lazy (self : OSV) (ctx : pyval) (tr : list call) :
  (forall l : list ids,
     browse server self (Ids l) ctx tr =
       (Ok (Generator (_browse_generator self l ctx)), tr))
  /\ (forall (o_id : ids) (rest : list ids),
        next server (_browse_generator self (o_id :: rest) ctx) tr =
          match browse server self o_id ctx tr with
          | (Ok b, tr') => (Ok b, _browse_generator self rest ctx, tr')
          | (Raise e, tr') => (Raise e, _browse_generator self [] ctx, tr')
          end)
  /\ (forall i : option Z,
        snd (browse server self (Id i) ctx tr) =
          (tr ++ [refresh_call self (new_record (_browse_class self) i) ctx])%list)
  /\ (forall (n : nat) (l : list ids),
        exists calls : list call,
          snd (pull server n (_browse_generator self l ctx) tr)
            = (tr ++ calls)%list
          /\ (length calls <= n)%nat
          /\ (length calls <= length l)%nat)
  /\ next server (_browse_generator self [] ctx) tr =
       (Raise StopIteration, _browse_generator self [] ctx, tr)
  /\ (forall n : nat,
        snd (pull server n (_browse_generator self [] ctx) tr) = tr).
Proof.
  split; [reflexivity|]. split; [reflexivity|].
  split; [intros i; apply browse_id_trace|].
  split; [intros n l; apply (pull_trace n (_browse_generator self l ctx) tr)|].
  split; [reflexivity|].
  intros n.
  destruct (pull_trace n (_browse_generator self [] ctx) tr)
    as (calls & -> & _ & Hlen).
  simpl in Hlen. destruct calls; [apply app_nil_r | simpl in Hlen; lia].
Qed.

(** *** Schema introspection *)

Section Generation.

Variable classify : string -> option field_kind.

(** Where a descriptor made by the loop of [_generate_browse_class] comes
    from. *)
Lemma generate_fields_lookup (items : list (string * pyval)) :
  forall (acc m : gmap string field) (k : string) (f : field),
    generate_fields classify items acc = Ok m ->
    m !! k = Some f ->
    acc !! k = Some f
    \/ ((k ∉ fields_reserved)
        /\ (exists data : pyval,
              (k, data) ∈ items /\ generate_field classify k data = Ok f)).
Proof.
  induction items as [|[a data] items IH]; intros acc m k f; simpl.
  - intros [= <-]. now left.
  - case_bool_decide as Hres.
    + intros Hrun Hk. destruct (IH _ _ _ _ Hrun Hk) as [?|(? & d' & Hin & ?)];
        [now left|].
      right. split; [assumption|]. exists d'. split; [|assumption].
      apply elem_of_cons. now right.
    + destruct (generate_field classify a data) as [fa|e] eqn:Hgen; [|discriminate].
      intros Hrun Hk. destruct (IH _ _ _ _ Hrun Hk) as [Hacc|(? & d' & Hin & ?)].
      * destruct (decide (a = k)) as [->|Hne].
        -- rewrite lookup_insert_eq in Hacc. injection Hacc as <-.
           right. split; [assumption|]. exists data. split; [|assumption].
           apply elem_of_cons. now left.
        -- rewrite lookup_insert_ne in Hacc by exact Hne. now left.
      * right. split; [assumption|]. exists d'. split; [|assumption].
        apply elem_of_cons. now right.
Qed.

Lemma generate_name_field :
  generate_field classify "name" name_field_data =
    match classify "text" with
    | Some k => Ok {| name := "name"; kind := k; label := "Name";
                      read_only := true |}
    | None => Raise (SchemaError "name")
    end.
Proof.
  unfold generate_field, name_field_data.
  rewrite lookup_insert_eq.
  destruct (classify "text"); reflexivity.
Qed.

(** C8.  In a record class that [_generate_browse_class] returns, no
    reserved name ([id], [__oerp__], [__osv__], [__data__]) has a
    descriptor; and when the schema the server sent has no field [name],
    the columns hold under [name] the descriptor generated for a read-only
    field of type [text] labelled [Name]. *)
Theorem generate_browse_class_columns (oerp_ : oerp) (name_ : string)
    (tr tr' : list call) (cls : browse_class) :
  _generate_browse_class server classify oerp_ name_ tr = (Ok cls, tr') ->
  (forall r : string,
     r ∈ fields_reserved -> columns (__osv__ cls) !! r = None)
  /\ (forall d : gmap string pyval,
        server tr (Execute name_ "fields_get" []) = Ok (VDict d) ->
        d !! "name" = None ->
        exists k : field_kind,
          classify "text" = Some k
          /\ columns (__osv__ cls) !! "name" =
               Some {| name := "name"; kind := k; label := "Name";
                       read_only := true |}).
Proof.
  unfold _generate_browse_class, execute. unfold_monad.
  destruct (server tr _) as [fields_get|e] eqn:Hs; [|discriminate].
  destruct fields_get as [| | | | |d0]; try discriminate.
  destruct (generate_fields classify (dict_items d0) ∅) as [m|e] eqn:Hm;
    [|discriminate].
  assert (forall r, r ∈ fields_reserved -> m !! r = None) as Hres.
  { intros r Hr. destruct (m !! r) as [f|] eqn:Hf; [|reflexivity].
    destruct (generate_fields_lookup _ _ _ _ _ Hm Hf) as [Hacc|[Hn _]];
      [now rewrite lookup_empty in Hacc | contradiction]. }
  assert (forall r, r ∈ fields_reserved -> r <> "name") as Hname.
  { intros r Hr ->. unfold fields_reserved in Hr.
    repeat (apply elem_of_cons in Hr as [Hr|Hr]; [discriminate|]).
    inversion Hr. }
  case_bool_decide as Hin; cbn [negb].
  - intros [= <- <-]. simpl. split; [exact Hres|].
    intros d [= <-] Hd. destruct Hin as [f Hf].
    destruct (generate_fields_lookup _ _ _ _ _ Hm Hf)
      as [Hacc|(_ & data & Hdata & _)];
      [now rewrite lookup_empty in Hacc|].
    apply elem_of_map_to_list in Hdata. congruence.
  - rewrite generate_name_field.
    destruct (classify "text") as [k|] eqn:Hk; [|discriminate].
    intros [= <- <-]. simpl. split.
    + intros r Hr. rewrite lookup_insert_ne by (symmetry; now apply Hname).
      now apply Hres.
    + intros d _ _. exists k. split; [reflexivity|]. apply lookup_insert_eq.
Qed.

End Generation.

End OsvFacts.

(** ** The properties on the concrete entity *)

Section OnFixtures.
Import Osv Fixtures.

(** The proxy of the fixtures is the one [OSV.__init__] builds from the
    server's schema: [id] is left out and [name] is added. *)
Lemma init_partner_osv :
  __init__ server_live classify std_oerp "res.partner" [] =
    (Ok (partner_osv std_oerp), [Execute "res.partner" "fields_get" []]).
Proof. vm_compute. reflexivity. Qed.

(** The witness of [refresh_False_row_raises]: record 42, gone from the
    server. *)
Lemma refresh_False_row_raises_witness :
  let self := partner_osv std_oerp in
  let st := fresh_state std_oerp (Some 42) in
  id (obj st) = Some 42
  /\ 42 <> 0
  /\ server_gone (trace st) (read_call self (Some 42) (py_or VNone (VDict ∅)))
       = Ok (VList [VBool false])
  /\ py_getitem0 (VList [VBool false]) = Ok (VBool false)
  /\ fst (_refresh server_gone self VNone st) =
       Raise (RPCError "There is no 'res.partner' record with ID 42.")
  /\ raw_data (__data__ (obj (snd (_refresh server_gone self VNone st))))
       = VBool false.
Proof.
  intros self st.
  assert (H1 : id (obj st) = Some 42) by reflexivity.
  assert (H2 : 42 <> 0) by lia.
  assert (H3 : server_gone (trace st)
                 (read_call self (Some 42) (py_or VNone (VDict ∅)))
               = Ok (VList [VBool false])) by reflexivity.
  assert (H4 : py_getitem0 (VList [VBool false]) = Ok (VBool false))
    by reflexivity.
  destruct (refresh_False_row_raises server_gone self VNone st 42 _ H1 H2 H3)
    as (Hfalse & _).
  destruct (Hfalse H4) as (Hr & Hraw & _).
  repeat split; assumption.
Defined.

(** C2, counterexample.  A read that answers one empty row, [[{}]], raises
    nothing: the refresh completes and [raw_data] is that empty row.  A read
    that answers no row, [[]], raises [IndexError], not the error that names
    the entity and the id. *)
Lemma refresh_empty_row_no_error :
  let self := partner_osv std_oerp in
  let st := fresh_state std_oerp (Some 42) in
  server_empty_row (trace st) (read_call self (Some 42) (VDict ∅))
    = Ok (VList [VDict ∅])
  /\ py_truthy (VDict ∅) = false
  /\ fst (_refresh server_empty_row self VNone st) = Ok tt
  /\ raw_data (__data__ (obj (snd (_refresh server_empty_row self VNone st))))
       = VDict ∅
  /\ server_no_row (trace st) (read_call self (Some 42) (VDict ∅))
       = Ok (VList [])
  /\ py_truthy (VList []) = false
  /\ fst (_refresh server_no_row self VNone st) = Raise IndexError.
Proof. vm_compute. repeat split. Qed.

(** The witness of [refresh_completes]: a draft, refreshed from the
    default values. *)
Lemma refresh_completes_witness :
  let self := partner_osv compat_oerp in
  let st := fresh_state compat_oerp None in
  let st' := snd (_refresh server_live self VNone st) in
  fst (_refresh server_live self VNone st) = Ok tt
  /\ fields_updated (__data__ (obj st')) = []
  /\ (exists d : gmap string pyval,
        raw_data (__data__ (obj st')) = VDict d
        /\ is_Some (d !! "name") /\ is_Some (d !! "partner_id")).
Proof.
  intros self st st'.
  assert (H : fst (_refresh server_live self VNone st) = Ok tt) by reflexivity.
  destruct (refresh_completes server_live self VNone st H)
    as (Hfu & Hdraft & _).
  split; [exact H|]. split; [exact Hfu|].
  destruct (Hdraft eq_refl) as (d & Hd & Hkeys).
  exists d. split; [exact Hd|].
  split; apply Hkeys; vm_compute; eauto.
Defined.

(** C3, counterexample.  Record 42 of an entity whose remote schema has no
    [name]: the server's row holds the server's fields, the refresh
    completes, and the schema field [name] has no entry in [raw_data]. *)
Lemma refresh_leaves_name_out :
  let self := partner_osv std_oerp in
  let st := fresh_state std_oerp (Some 42) in
  let st' := snd (_refresh server_live self VNone st) in
  fst (_refresh server_live self VNone st) = Ok tt
  /\ columns (__osv__ (__class__ (obj st))) !! "name" = Some name_field
  /\ raw_data (__data__ (obj st')) = partner_row
  /\ py_contains "name" (raw_data (__data__ (obj st'))) = Ok false.
Proof. vm_compute. repeat split. Qed.



(** The witness of [write_vals_many2one]: [partner_id] edited to
    [(9, "Other")] goes out as [9]. *)
Lemma write_vals_many2one_witness :
  let self := partner_osv std_oerp in
  let o := dirty_record std_oerp in
  let payload : gmap string pyval := <["partner_id" := VInt 9]> ∅ in
  write_vals self o ["partner_id"] ∅ = Ok payload
  /\ "partner_id" ∈ ["partner_id"]
  /\ py_contains "partner_id" (raw_data (__data__ o)) = Ok true
  /\ columns (__osv__ (_browse_class self)) !! "partner_id" = Some partner_id_field
  /\ kind partner_id_field = Many2OneField
  /\ attrs o !! private "partner_id" = Some (VList [VInt 9; VStr "Other"])
  /\ payload !! "partner_id" = Some (VInt 9).
Proof.
  intros self o payload.
  assert (H1 : write_vals self o ["partner_id"] ∅ = Ok payload) by reflexivity.
  assert (H2 : "partner_id" ∈ ["partner_id"]) by (apply elem_of_cons; now left).
  assert (H3 : py_contains "partner_id" (raw_data (__data__ o)) = Ok true)
    by reflexivity.
  assert (H4 : columns (__osv__ (_browse_class self)) !! "partner_id"
               = Some partner_id_field) by reflexivity.
  assert (H5 : kind partner_id_field = Many2OneField) by reflexivity.
  assert (H6 : attrs o !! private "partner_id"
               = Some (VList [VInt 9; VStr "Other"])) by reflexivity.
  repeat (split; [assumption|]).
  exact (write_vals_many2one self o _ payload "partner_id" partner_id_field
           (VInt 9) (VStr "Other") H1 H2 H3 H4 H5 H6).
Defined.

(** The witness of [write_vals_skips_unknown]: the dirty name [note] is
    not a key of [raw_data] and is passed over. *)
Lemma write_vals_skips_unknown_witness :
  let self := partner_osv std_oerp in
  let o := dirty_record_unknown std_oerp in
  raw_data (__data__ o) = VDict partner_row_dict
  /\ partner_row_dict !! "note" = None
  /\ write_vals self o ["note"; "partner_id"] ∅
     = write_vals self o ["partner_id"] ∅
  /\ write_vals self o ["note"; "partner_id"] ∅
     = Ok (<["partner_id" := VInt 9]> ∅).
Proof.
  intros self o.
  assert (H : raw_data (__data__ o) = VDict partner_row_dict) by reflexivity.
  split; [exact H|]. split; [reflexivity|].
  split; [|reflexivity].
  exact (proj1 (proj1 (write_vals_skips_unknown self o ["note"; "partner_id"])
                  partner_row_dict H)).
Defined.

(** C9, counterexample.  The record with the dirty names [note] and
    [partner_id] is written; the write succeeds and the read that follows
    answers [[False]].  The record is left with [raw_data] holding [False]
    and both names still dirty.  Written again, [note], which is no key of
    [raw_data], is not passed over: looking it up raises [TypeError], and
    nothing is sent. *)
Lemma write_again_after_gone_raises :
  let self := partner_osv std_oerp in
  let st := {| obj := dirty_record_unknown std_oerp; trace := [] |} in
  let st1 := snd (_write_record server_gone self VNone st) in
  raw_data (__data__ (obj st1)) = VBool false
  /\ fields_updated (__data__ (obj st1)) = ["note"; "partner_id"]
  /\ py_contains "note" (raw_data (__data__ (obj st1))) = Raise TypeError
  /\ write_vals self (obj st1) (fields_updated (__data__ (obj st1))) ∅
     = Raise TypeError
  /\ _write_record server_gone self VNone st1 = (Raise TypeError, st1).
Proof. vm_compute. repeat split. Qed.

(** The witness of [rpc_method_compatible]: [search] forwarded in
    compatibility mode, with a [context] keyword and without. *)
Lemma rpc_method_compatible_witness :
  let self := partner_osv compat_oerp in
  let kwargs : gmap string pyval := <["context" := VDict ∅]> ∅ in
  compatible (_oerp self) = true
  /\ kwargs <> ∅
  /\ rpc_method server_live self "search" [VList []] kwargs [] =
       (Raise (RPCError "Named parameters are not supported in compatibility mode"),
        [])
  /\ rpc_method server_live self "search" [VList []] ∅ [] =
       (Ok (VBool true), [Execute "res.partner" "search" [VList []]]).
Proof.
  intros self kwargs.
  assert (Hc : compatible (_oerp self) = true) by reflexivity.
  assert (Hk : kwargs <> ∅) by apply insert_non_empty.
  split; [exact Hc|]. split; [exact Hk|].
  split.
  - exact (proj1 (rpc_method_compatible server_live self "search" [VList []]
                    kwargs [] Hc) Hk).
  - exact (proj2 (rpc_method_compatible server_live self "search" [VList []]
                    ∅ [] Hc) eq_refl).
Defined.

(** The witness of [generate_browse_class_columns]: the class generated
    from the schema of the fixtures, which has [id] and no [name]. *)
Lemma generate_browse_class_columns_witness :
  let cls := partner_class std_oerp in
  _generate_browse_class server_live classify std_oerp "res.partner" [] =
    (Ok cls, [Execute "res.partner" "fields_get" []])
  /\ is_Some (partner_schema !! "id")
  /\ partner_schema !! "name" = None
  /\ columns (__osv__ cls) !! "id" = None
  /\ columns (__osv__ cls) !! "name" =
       Some {| name := "name"; kind := TextField; label := "Name";
               read_only := true |}.
Proof.
  intros cls.
  assert (H : _generate_browse_class server_live classify std_oerp
                "res.partner" [] =
              (Ok cls, [Execute "res.partner" "fields_get" []]))
    by (vm_compute; reflexivity).
  assert (Hn : partner_schema !! "name" = None) by reflexivity.
  destruct (generate_browse_class_columns server_live classify std_oerp
              "res.partner" [] _ cls H) as [Hres Hname].
  split; [exact H|]. split; [vm_compute; eauto|]. split; [exact Hn|].
  split.
  - apply Hres. apply elem_of_cons. now left.
  - destruct (Hname partner_schema eq_refl Hn) as (k & Hk & Hcol).
    injection Hk as <-. exact Hcol.
Defined.

(** Browsing the empty list, then asking three times for an element:
    [StopIteration] each time, and no call. *)
Lemma browse_empty_list :
  let self := partner_osv std_oerp in
  let g := _browse_generator self [] VNone in
  browse server_live self (Ids []) VNone [] = (Ok (Generator g), [])
  /\ pull server_live 3 g [] =
       ([Raise StopIteration; Raise StopIteration; Raise StopIteration], g, []).
Proof. vm_compute. repeat split. Qed.

(** Browsing [[42, 43]]: nothing is sent until an element is asked for,
    and then one read per element. *)
Lemma browse_two_ids :
  let self := partner_osv compat_oerp in
  let l := [Id (Some 42); Id (Some 43)] in
  let g := _browse_generator self l VNone in
  snd (browse server_live self (Ids l) VNone []) = []
  /\ snd (pull server_live 1 g []) =
       [Execute "res.partner" "read" [VList [VInt 42]; VNone; VDict ∅]]
  /\ snd (pull server_live 5 g []) =
       [Execute "res.partner" "read" [VList [VInt 42]; VNone; VDict ∅];
        Execute "res.partner" "read" [VList [VInt 43]; VNone; VDict ∅]].
Proof. vm_compute. repeat split. Qed.

End OnFixtures.

(** ** More on the model pool *)

Section PoolMore.
Import Pool.

Variable introspection_error : string -> option exn.

(** [get] on a name that is not cached, when the proxy can be built: the
    pool it leaves. *)
Lemma get_new_run (p : pool) (osv_name : string) (refresh : bool) :
  _factories_by_osv_name p !! osv_name = None ->
  introspection_error osv_name = None ->
  get introspection_error osv_name refresh p =
    (Ok (S (next_ref p)),
     {| heap := <[S (next_ref p) :=
                    {| fac_name := osv_name; fac_class := next_ref p;
                       fac_keys := [] |}]> (heap p);
        next_ref := S (S (next_ref p));
        _factories_by_osv_name :=
          <[osv_name := S (next_ref p)]> (_factories_by_osv_name p);
        _factories_by_osv_class :=
          <[next_ref p := S (next_ref p)]> (_factories_by_osv_class p) |}).
Proof.
  intros Hn He.
  unfold get, by_name_getitem, Factory, osv_class, set_by_name, set_by_class.
  unfold_monad. rewrite Hn.
  rewrite bool_decide_eq_false_2 by (intros [x Hx]; discriminate). simpl.
  rewrite He. simpl. rewrite !lookup_insert_eq. simpl.
  now rewrite lookup_insert_eq.
Qed.

(** X5.  When the proxy cannot be built, [get] on a name that is not
    cached, or with [refresh=True], raises the error of the introspection
    and leaves the pool as it was: nothing is cached for the name, and a
    proxy that was cached stays. *)
Theorem get_failure_leaves_pool (p : pool) (osv_name : string)
    (refresh : bool) (e : exn) :
  introspection_error osv_name = Some e ->
  _factories_by_osv_name p !! osv_name = None \/ refresh = true ->
  get introspection_error osv_name refresh p = (Raise e, p).
Proof.
  intros He Hc.
  unfold get, by_name_getitem, Factory. unfold_monad.
  destruct (_factories_by_osv_name p !! osv_name) as [a|] eqn:Hn.
  - destruct Hc as [Hc| ->]; [discriminate|].
    rewrite bool_decide_eq_true_2 by eauto. simpl. now rewrite He.
  - rewrite bool_decide_eq_false_2 by (intros [x Hx]; discriminate). simpl.
    now rewrite He.
Qed.

(** X6.  [get] on a name that is not cached, when the proxy can be built,
    returns a new proxy object and installs it under the name and under its
    generated class: [get_by_class] of that class then returns it, a plain
    [get] of the name returns it, and the entries of the other names and
    classes are as they were. *)
Theorem get_new_name_registers_both (p : pool) (osv_name : string)
    (refresh : bool) :
  _factories_by_osv_name p !! osv_name = None ->
  introspection_error osv_name = None ->
  let facto := S (next_ref p) in
  let cls := next_ref p in
  let p' := snd (get introspection_error osv_name refresh p) in
  fst (get introspection_error osv_name refresh p) = Ok facto
  /\ (fac_class <$> heap p' !! facto) = Some cls
  /\ get_by_class cls p' = (Ok facto, p')
  /\ get introspection_error osv_name false p' = (Ok facto, p')
  /\ (forall other : string,
        other <> osv_name ->
        _factories_by_osv_name p' !! other = _factories_by_osv_name p !! other)
  /\ (forall c : ref,
        c <> cls ->
        _factories_by_osv_class p' !! c = _factories_by_osv_class p !! c).
Proof.
  intros Hn He. simpl. rewrite (get_new_run p osv_name refresh Hn He). simpl.
  split; [reflexivity|]. split; [now rewrite lookup_insert_eq|].
  split.
  { unfold get_by_class. unfold_monad. simpl. now rewrite lookup_insert_eq. }
  split.
  { apply get_cached. simpl. apply lookup_insert_eq. }
  split; intros x Hx; now rewrite lookup_insert_ne.
Qed.

(** X7.  [__delitem__] on a name that is not cached raises [KeyError] with
    that name and leaves the pool as it was. *)
Theorem delitem_missing (p : pool) (osv_name : string) :
  _factories_by_osv_name p !! osv_name = None ->
  __delitem__ osv_name p = (Raise (KeyError osv_name), p).
Proof.
  intros Hn. unfold __delitem__, by_name_getitem. unfold_monad.
  now rewrite Hn.
Qed.

Lemma pool_inv_get_new (p : pool) (osv_name : string) :
  pool_inv p ->
  pool_inv
    {| heap := <[S (next_ref p) :=
                   {| fac_name := osv_name; fac_class := next_ref p;
                      fac_keys := [] |}]> (heap p);
       next_ref := S (S (next_ref p));
       _factories_by_osv_name :=
         <[osv_name := S (next_ref p)]> (_factories_by_osv_name p);
       _factories_by_osv_class :=
         <[next_ref p := S (next_ref p)]> (_factories_by_osv_class p) |}.
Proof.
  intros (Hname & Hcls & Hheap). unfold pool_inv. simpl.
  split; [|split].
  - intros n a Hl. destruct (decide (osv_name = n)) as [->|Hne].
    + rewrite lookup_insert_eq in Hl. injection Hl as <-.
      rewrite lookup_insert_eq. eauto.
    + rewrite lookup_insert_ne in Hl by exact Hne.
      destruct (Hname _ _ Hl) as (f & Hf & Hfn).
      exists f. split; [|exact Hfn].
      rewrite lookup_insert_ne; [exact Hf|].
      destruct (Hheap _ _ Hf). lia.
  - intros c a Hl. destruct (decide (next_ref p = c)) as [<-|Hne].
    + rewrite lookup_insert_eq in Hl. injection Hl as <-.
      rewrite lookup_insert_eq. eauto.
    + rewrite lookup_insert_ne in Hl by exact Hne.
      destruct (Hcls _ _ Hl) as (f & Hf & Hfc).
      exists f. split; [|exact Hfc].
      rewrite lookup_insert_ne; [exact Hf|].
      destruct (Hheap _ _ Hf). lia.
  - intros a f Hl. destruct (decide (S (next_ref p) = a)) as [<-|Hne].
    + rewrite lookup_insert_eq in Hl. injection Hl as <-. simpl. lia.
    + rewrite lookup_insert_ne in Hl by exact Hne.
      destruct (Hheap _ _ Hl). lia.
Qed.

Lemma pool_inv_get_refresh (p : pool) (osv_name : string) :
  pool_inv p ->
  pool_inv
    {| heap := <[S (next_ref p) :=
                   {| fac_name := osv_name; fac_class := next_ref p;
                      fac_keys := [] |}]> (heap p);
       next_ref := S (S (next_ref p));
       _factories_by_osv_name :=
         <[osv_name := S (next_ref p)]> (_factories_by_osv_name p);
       _factories_by_osv_class := _factories_by_osv_class p |}.
Proof.
  intros (Hname & Hcls & Hheap). unfold pool_inv. simpl.
  split; [|split].
  - intros n a Hl. destruct (decide (osv_name = n)) as [->|Hne].
    + rewrite lookup_insert_eq in Hl. injection Hl as <-.
      rewrite lookup_insert_eq. eauto.
    + rewrite lookup_insert_ne in Hl by exact Hne.
      destruct (Hname _ _ Hl) as (f & Hf & Hfn).
      exists f. split; [|exact Hfn].
      rewrite lookup_insert_ne; [exact Hf|].
      destruct (Hheap _ _ Hf). lia.
  - intros c a Hl. destruct (Hcls _ _ Hl) as (f & Hf & Hfc).
    exists f. split; [|exact Hfc].
    rewrite lookup_insert_ne; [exact Hf|].
    destruct (Hheap _ _ Hf). lia.
  - intros a f Hl. destruct (decide (S (next_ref p) = a)) as [<-|Hne].
    + rewrite lookup_insert_eq in Hl. injection Hl as <-. simpl. lia.
    + rewrite lookup_insert_ne in Hl by exact Hne.
      destruct (Hheap _ _ Hl). lia.
Qed.

Lemma pool_inv_get (p : pool) (osv_name : string) (refresh : bool) :
  pool_inv p -> pool_inv (snd (get introspection_error osv_name refresh p)).
Proof.
  intros Hinv.
  destruct (_factories_by_osv_name p !! osv_name) as [a|] eqn:Hn;
    destruct (introspection_error osv_name) as [e|] eqn:He.
  - destruct refresh.
    + rewrite get_failure_leaves_pool with (e := e); auto.
    + now rewrite (get_cached introspection_error p osv_name a Hn).
  - destruct refresh.
    + rewrite (get_refresh_cached introspection_error p osv_name a Hn He).
      now apply pool_inv_get_refresh.
    + now rewrite (get_cached introspection_error p osv_name a Hn).
  - rewrite get_failure_leaves_pool with (e := e); auto.
  - rewrite (get_new_run p osv_name refresh Hn He).
    now apply pool_inv_get_new.
Qed.

Lemma delitem_run (p : pool) (osv_name : string) (facto : ref) :
  _factories_by_osv_name p !! osv_name = Some facto ->
  __delitem__ osv_name p =
    (Ok tt,
     {| heap := alter (fun f => {| fac_name := fac_name f;
                                   fac_class := fac_class f;
                                   fac_keys := [] |}) facto (heap p);
        next_ref := next_ref p;
        _factories_by_osv_name := delete osv_name (_factories_by_osv_name p);
        _factories_by_osv_class := _factories_by_osv_class p |}).
Proof.
  intros Hn. unfold __delitem__, by_name_getitem, clear, set_heap, set_by_name.
  unfold_monad. now rewrite Hn.
Qed.

Lemma pool_inv_delitem (p : pool) (osv_name : string) :
  pool_inv p -> pool_inv (snd (__delitem__ osv_name p)).
Proof.
  intros Hinv.
  destruct (_factories_by_osv_name p !! osv_name) as [a|] eqn:Hn.
  - rewrite (delitem_run p osv_name a Hn). simpl.
    destruct Hinv as (Hname & Hcls & Hheap). unfold pool_inv. simpl.
    assert (forall b f, heap p !! b = Some f ->
              exists f', alter (fun f => {| fac_name := fac_name f;
                                            fac_class := fac_class f;
                                            fac_keys := [] |}) a (heap p) !! b
                           = Some f'
                         /\ fac_name f' = fac_name f
                         /\ fac_class f' = fac_class f) as Halt.
    { intros b f Hf. destruct (decide (a = b)) as [->|Hne].
      - rewrite lookup_alter_eq, Hf. simpl. eauto.
      - rewrite lookup_alter_ne by exact Hne. eauto. }
    split; [|split].
    + intros n b Hl. apply lookup_delete_Some in Hl as [_ Hl].
      destruct (Hname _ _ Hl) as (f & Hf & Hfn).
      destruct (Halt _ _ Hf) as (f' & Hf' & Hn' & _).
      exists f'. split; [exact Hf'|congruence].
    + intros c b Hl. destruct (Hcls _ _ Hl) as (f & Hf & Hfc).
      destruct (Halt _ _ Hf) as (f' & Hf' & _ & Hc').
      exists f'. split; [exact Hf'|congruence].
    + intros b f' Hl. destruct (decide (a = b)) as [->|Hne].
      * rewrite lookup_alter_eq in Hl.
        destruct (heap p !! b) as [f|] eqn:Hf; [|discriminate].
        injection Hl as <-. simpl. exact (Hheap _ _ Hf).
      * rewrite lookup_alter_ne in Hl by exact Hne. exact (Hheap _ _ Hl).
  - now rewrite (delitem_missing p osv_name Hn).
Qed.

(** X8.  [get] and [__delitem__] keep the invariant of the pool, whatever
    their arguments and whether they return or raise; under it, two names
    never share a proxy object, and two classes never lead to the same
    proxy. *)
Theorem pool_inv_kept (p : pool) (osv_name : string) (refresh : bool) :
  pool_inv p ->
  pool_inv (snd (get introspection_error osv_name refresh p))
  /\ pool_inv (snd (__delitem__ osv_name p))
  /\ (forall (n1 n2 : string) (facto : ref),
        _factories_by_osv_name p !! n1 = Some facto ->
        _factories_by_osv_name p !! n2 = Some facto ->
        n1 = n2)
  /\ (forall c1 c2 facto : ref,
        _factories_by_osv_class p !! c1 = Some facto ->
        _factories_by_osv_class p !! c2 = Some facto ->
        c1 = c2).
Proof.
  intros Hinv. split; [now apply pool_inv_get|].
  split; [now apply pool_inv_delitem|].
  destruct Hinv as (Hname & Hcls & _). split.
  - intros n1 n2 a H1 H2.
    destruct (Hname _ _ H1) as (f1 & Hf1 & <-).
    destruct (Hname _ _ H2) as (f2 & Hf2 & <-). congruence.
  - intros c1 c2 a H1 H2.
    destruct (Hcls _ _ H1) as (f1 & Hf1 & <-).
    destruct (Hcls _ _ H2) as (f2 & Hf2 & <-). congruence.
Qed.

(** X9.  Iterating over the pool gives exactly the names that are cached,
    each once, and [len] counts them. *)
Theorem iter_lists_cached_names (p : pool) :
  (forall osv_name : string,
     osv_name ∈ __iter__ p <-> is_Some (_factories_by_osv_name p !! osv_name))
  /\ NoDup (__iter__ p)
  /\ length (__iter__ p) = __len__ p.
Proof.
  unfold __iter__, __len__. split; [|split].
  - intros n. apply elem_of_dict_keys.
  - apply NoDup_fst_map_to_list.
  - unfold dict_keys, dict_items. rewrite length_fmap. apply length_map_to_list.
Qed.

(** X10.  How [len] moves: a [get] that caches a new name adds one; a
    [get] on a cached name, refreshed or not, failing or not, leaves it;
    [__delitem__] on a cached name takes one off. *)
Theorem len_after_get_delitem (p : pool) (osv_name : string) (refresh : bool) :
  (_factories_by_osv_name p !! osv_name = None ->
   introspection_error osv_name = None ->
   __len__ (snd (get introspection_error osv_name refresh p)) = S (__len__ p))
  /\ (is_Some (_factories_by_osv_name p !! osv_name) ->
      __len__ (snd (get introspection_error osv_name refresh p)) = __len__ p
      /\ S (__len__ (snd (__delitem__ osv_name p))) = __len__ p).
Proof.
  unfold __len__. split.
  - intros Hn He. rewrite (get_new_run p osv_name refresh Hn He). simpl.
    now apply map_size_insert_None.
  - intros [a Ha]. split.
    + destruct refresh;
        [|now rewrite (get_cached introspection_error p osv_name a Ha)].
      destruct (introspection_error osv_name) as [e|] eqn:He.
      * rewrite get_failure_leaves_pool with (e := e); auto.
      * rewrite (get_refresh_cached introspection_error p osv_name a Ha He).
        simpl. apply map_size_insert_Some. eauto.
    + rewrite (delitem_run p osv_name a Ha). simpl.
      rewrite map_size_delete_Some by eauto.
      assert (size (_factories_by_osv_name p) <> 0%nat) as Hne.
      { intros H0. apply map_size_empty_iff in H0. rewrite H0 in Ha.
        now rewrite lookup_empty in Ha. }
      lia.
Qed.

Lemma pool_inv_init : pool_inv init.
Proof.
  unfold pool_inv, init. simpl.
  repeat split; intros; rewrite lookup_empty in *; discriminate.
Qed.

(** X11.  Deleting a cached name and asking for it again builds a new
    proxy, a different object from the evicted one; the classes that led
    to the evicted proxy still lead to it, beside the class of the new
    one. *)
Theorem delitem_then_get (p : pool) (osv_name : string) (old : ref) :
  pool_inv p ->
  _factories_by_osv_name p !! osv_name = Some old ->
  introspection_error osv_name = None ->
  let p1 := snd (__delitem__ osv_name p) in
  let p2 := snd (get introspection_error osv_name false p1) in
  let new := S (next_ref p) in
  fst (get introspection_error osv_name false p1) = Ok new
  /\ new <> old
  /\ _factories_by_osv_name p2 !! osv_name = Some new
  /\ get_by_class (next_ref p) p2 = (Ok new, p2)
  /\ (forall cls : ref,
        _factories_by_osv_class p !! cls = Some old ->
        get_by_class cls p2 = (Ok old, p2)).
Proof.
  intros Hinv Hn He. simpl.
  rewrite (delitem_run p osv_name old Hn). simpl.
  rewrite get_new_run; simpl; [|apply lookup_delete_eq|exact He].
  destruct Hinv as (Hname & Hcls & Hheap).
  destruct (Hname _ _ Hn) as (f & Hf & _).
  destruct (Hheap _ _ Hf) as [Hlt _].
  split; [reflexivity|]. split; [lia|].
  split; [apply lookup_insert_eq|].
  split.
  - unfold get_by_class. unfold_monad. simpl. now rewrite lookup_insert_eq.
  - intros cls Hc. unfold get_by_class. unfold_monad. simpl.
    destruct (Hcls _ _ Hc) as (f' & Hf' & Hfc).
    destruct (Hheap _ _ Hf') as [_ Hlt'].
    rewrite lookup_insert_ne by lia. now rewrite Hc.
Qed.

End PoolMore.

(** ** More on the model proxy *)

Section OsvMore.
Import Osv.

Variable server : list call -> call -> result pyval.

(** *** Forwarding outside compatibility mode *)

(** X12.  Outside compatibility mode a forwarded method sends exactly one
    [execute_kw] call and returns what the server answers to it.  The
    keyword arguments go out as given, but for [context]: one that the
    caller gave is kept; when none was given, the connection's context is
    added if [auto_context] is set, and nothing is added otherwise. *)
Theorem rpc_method_standard (self : OSV) (method : string)
    (args : list pyval) (kwargs : gmap string pyval) (tr : list call) :
  compatible (_oerp self) = false ->
  exists kwargs' : gmap string pyval,
    let c := ExecuteKw (osv_name (__osv__ (_browse_class self))) method args
               kwargs' in
    rpc_method server self method args kwargs tr = (server tr c, (tr ++ [c])%list)
    /\ (forall k : string, k <> "context" -> kwargs' !! k = kwargs !! k)
    /\ kwargs' !! "context" =
         match kwargs !! "context" with
         | Some v => Some v
         | None => if auto_context (_oerp self)
                   then Some (oerp_context (_oerp self)) else None
         end.
Proof.
  intros Hc. unfold rpc_method, execute_kw. rewrite Hc.
  destruct (auto_context (_oerp self)); simpl.
  - destruct (kwargs !! "context") as [v|] eqn:Hk.
    + rewrite bool_decide_eq_true_2 by eauto. simpl.
      exists kwargs. simpl. rewrite Hk. auto.
    + rewrite bool_decide_eq_false_2 by (intros [x Hx]; discriminate). simpl.
      eexists. split; [reflexivity|]. split.
      * intros k Hne. now rewrite lookup_insert_ne.
      * apply lookup_insert_eq.
  - exists kwargs. simpl. split; [reflexivity|]. split; [auto|].
    now destruct (kwargs !! "context").
Qed.

(** X13.  A forwarded method sends at most one call, after those already
    sent, and none exactly when it is called with keyword arguments in
    compatibility mode; when it sends one, what it returns or raises is
    what the server answered, as it came. *)
Theorem rpc_method_trace (self : OSV) (method : string)
    (args : list pyval) (kwargs : gmap string pyval) (tr : list call) :
  (compatible (_oerp self) = true /\ kwargs <> ∅ ->
   snd (rpc_method server self method args kwargs tr) = tr)
  /\ (~ (compatible (_oerp self) = true /\ kwargs <> ∅) ->
      exists c : call,
        rpc_method server self method args kwargs tr
          = (server tr c, (tr ++ [c])%list)).
Proof.
  unfold rpc_method, execute, execute_kw. split.
  - intros [-> Hk]. now rewrite bool_decide_eq_false_2.
  - intros Hn. destruct (compatible (_oerp self)).
    + case_bool_decide as Hk; simpl; [eauto|].
      exfalso. apply Hn. now split.
    + eauto.
Qed.

(** *** Unlink *)

(** X14.  [_unlink_record] sends exactly one [unlink] call, for the id of
    the record and with the context it was given (the connection's context
    is never put in its place), and returns or raises what the server
    answers; the record object is left exactly as it was, also when the
    server has deleted the record. *)
Theorem unlink_record_frame (self : OSV) (ctx : pyval) (st : state) :
  let c := unlink_call self (id (obj st)) ctx in
  _unlink_record server self ctx st =
    (server (trace st) c,
     {| obj := obj st; trace := (trace st ++ [c])%list |}).
Proof.
  unfold _unlink_record, unlink_call, in_world, rpc_method, execute, execute_kw.
  unfold_monad.
  destruct (compatible (_oerp self)).
  - now rewrite bool_decide_eq_true_2 by done.
  - rewrite lookup_singleton_eq.
    rewrite (bool_decide_eq_true_2 (is_Some _)) by eauto.
    now rewrite andb_false_r.
Qed.

(** *** Reset on a dict and on a value that is no container *)

(** The loop of [_reset] when [raw_data] is a dict: it completes, and the
    record it leaves. *)
Lemma for_each_reset_dict (d : gmap string pyval) (l : list field) :
  forall st : state,
    raw_data (__data__ (obj st)) = VDict d ->
    for_each l reset_field st =
      (Ok tt,
       {| obj :=
            {| id := id (obj st);
               __data__ := __data__ (obj st);
               attrs := load_attrs d l (attrs (obj st));
               __class__ :=
                 {| cls_name := cls_name (__class__ (obj st));
                    __oerp__ := __oerp__ (__class__ (obj st));
                    __osv__ := __osv__ (__class__ (obj st));
                    __slots__ := __slots__ (__class__ (obj st));
                    descriptors :=
                      load_descriptors d l (descriptors (__class__ (obj st))) |} |};
          trace := trace st |}).
Proof.
  induction l as [|f l IH]; intros [[i dat a [cn co os sl de]] tr] Hraw;
    simpl in *; [reflexivity|].
  unfold bind, reset_field at 1, setattr, setattr_class, set_obj.
  unfold_monad. simpl. rewrite Hraw. simpl.
  destruct (d !! name f) as [v|] eqn:Hf.
  - rewrite bool_decide_eq_true_2 by eauto. simpl.
    rewrite IH by exact Hraw. reflexivity.
  - rewrite bool_decide_eq_false_2 by (intros [x Hx]; discriminate). simpl.
    rewrite IH by exact Hraw. reflexivity.
Qed.

Lemma private_inj (a b : string) : private a = private b -> a = b.
Proof. unfold private. cbn. intros H. now injection H. Qed.

Lemma load_attrs_lookup (d : gmap string pyval) (l : list field) (f : field)
    (v : pyval) :
  d !! name f = Some v ->
  forall acc : gmap string pyval,
    f ∈ l \/ acc !! private (name f) = Some v ->
    load_attrs d l acc !! private (name f) = Some v.
Proof.
  intros Hv. unfold load_attrs.
  induction l as [|a l IH]; intros acc Hk; simpl.
  - destruct Hk as [Hk|Hk]; [inversion Hk | exact Hk].
  - apply IH. destruct (decide (name a = name f)) as [Heq|Hne].
    + right. rewrite Heq, Hv. apply lookup_insert_eq.
    + destruct Hk as [Hk|Hk].
      * left. apply elem_of_cons in Hk as [->|Hk]; [contradiction | exact Hk].
      * right. destruct (d !! name a); [|exact Hk].
        rewrite lookup_insert_ne; [exact Hk|].
        intros Hp. now apply private_inj in Hp.
Qed.

Lemma load_attrs_other (d : gmap string pyval) (l : list field) (a : string) :
  (forall f : field, f ∈ l -> is_Some (d !! name f) -> private (name f) <> a) ->
  forall acc : gmap string pyval, load_attrs d l acc !! a = acc !! a.
Proof.
  unfold load_attrs. induction l as [|f l IH]; intros Hl acc; simpl;
    [reflexivity|].
  rewrite IH.
  - destruct (d !! name f) as [v|] eqn:Hf; [|reflexivity].
    apply lookup_insert_ne. apply Hl; [apply elem_of_cons; now left | eauto].
  - intros f' Hin. apply Hl. apply elem_of_cons. now right.
Qed.

Lemma load_descriptors_lookup (d : gmap string pyval) (l : list field)
    (k : string) :
  forall acc : gmap string field,
    (exists f, f ∈ l /\ name f = k /\ is_Some (d !! k))
    \/ (exists f, name f = k /\ acc !! k = Some f) ->
    exists f : field, name f = k /\ load_descriptors d l acc !! k = Some f.
Proof.
  unfold load_descriptors. induction l as [|a l IH]; intros acc Hk; simpl.
  - destruct Hk as [(f & Hin & _)|Hk]; [inversion Hin | exact Hk].
  - apply IH. destruct (decide (name a = k)) as [Heq|Hne].
    + destruct (d !! name a) as [v|] eqn:Ha.
      * right. exists a. split; [exact Heq|]. rewrite <- Heq.
        apply lookup_insert_eq.
      * destruct Hk as [(f & Hin & Hf & Hd)|Hk]; [|now right].
        rewrite <- Heq, Ha in Hd. now destruct Hd.
    + destruct Hk as [(f & Hin & Hf & Hd)|(f & Hf & Hacc)].
      * left. exists f. apply elem_of_cons in Hin as [->|Hin];
          [contradiction | auto].
      * right. exists f. split; [exact Hf|].
        destruct (d !! name a); [|exact Hacc].
        now rewrite lookup_insert_ne.
Qed.

(** X15.  With [raw_data] a dict, [_reset] completes.  Every descriptor of
    the schema whose name is a key of [raw_data] has then set the
    attribute [_<name>] of the record to the value under that key and is
    installed on the class under its name; every other attribute of the
    record is as it was. *)
Theorem reset_loads_fields (self : OSV) (st : state) (d : gmap string pyval) :
  raw_data (__data__ (obj st)) = VDict d ->
  let st' := snd (_reset self st) in
  let fields := dict_values (columns (__osv__ (_browse_class self))) in
  fst (_reset self st) = Ok tt
  /\ (forall (f : field) (v : pyval),
        f ∈ fields ->
        d !! name f = Some v ->
        attrs (obj st') !! private (name f) = Some v
        /\ exists f' : field,
             name f' = name f
             /\ descriptors (__class__ (obj st')) !! name f = Some f')
  /\ (forall a : string,
        (forall f : field,
           f ∈ fields -> is_Some (d !! name f) -> private (name f) <> a) ->
        attrs (obj st') !! a = attrs (obj st) !! a).
Proof.
  intros Hraw. simpl.
  unfold _reset, set_fields_updated, set_obj, set_data. unfold_monad.
  rewrite (for_each_reset_dict d) by exact Hraw. simpl.
  split; [reflexivity|]. split.
  - intros f v Hin Hv. split.
    + apply load_attrs_lookup; auto.
    + apply load_descriptors_lookup. left. exists f. eauto.
  - intros a Ha. now apply load_attrs_other.
Qed.

(** The loop of [_reset] when [raw_data] is not a container: the first
    descriptor raises [TypeError]. *)
Lemma for_each_reset_not_iterable (f : field) (l : list field) (st : state) :
  not_iterable (raw_data (__data__ (obj st))) = true ->
  for_each (f :: l) reset_field st = (Raise TypeError, st).
Proof.
  intros Hraw. simpl. unfold bind, reset_field. unfold_monad.
  destruct (raw_data (__data__ (obj st))); try discriminate; reflexivity.
Qed.

(** X16.  With [raw_data] a value that is no container ([None], a boolean
    or an integer: for one, the [False] that a refresh leaves when the
    record is gone) and a schema that has a field, [_reset] raises
    [TypeError]; [fields_updated] has been emptied by then and the
    attributes of the record are as they were.  [_write_record] on such a
    record with a dirty name raises [TypeError] as well, with nothing sent
    and the record as it was. *)
Theorem reset_not_iterable_raises (self : OSV) (ctx : pyval) (st : state) :
  not_iterable (raw_data (__data__ (obj st))) = true ->
  (columns (__osv__ (_browse_class self)) <> ∅ ->
   fst (_reset self st) = Raise TypeError
   /\ fields_updated (__data__ (obj (snd (_reset self st)))) = []
   /\ attrs (obj (snd (_reset self st))) = attrs (obj st))
  /\ (fields_updated (__data__ (obj st)) <> [] ->
      _write_record server self ctx st = (Raise TypeError, st)).
Proof.
  intros Hraw. split.
  - intros Hcols.
    unfold _reset, set_fields_updated, set_obj, set_data. unfold_monad.
    destruct (dict_values (columns (__osv__ (_browse_class self))))
      as [|f l] eqn:Hl.
    + exfalso. apply Hcols. apply map_to_list_empty_iff.
      unfold dict_values, dict_items in Hl.
      now apply fmap_nil_inv in Hl.
    + rewrite for_each_reset_not_iterable by exact Hraw. simpl. auto.
  - intros Hdirty. unfold _write_record. unfold_monad.
    destruct (fields_updated (__data__ (obj st))) as [|k names];
      [contradiction|].
    simpl. unfold write_value.
    destruct (raw_data (__data__ (obj st))); try discriminate; reflexivity.
Qed.

(** *** More on refresh *)

Lemma reset_dict_ok (self : OSV) (st : state) (d : gmap string pyval) :
  raw_data (__data__ (obj st)) = VDict d -> fst (_reset self st) = Ok tt.
Proof.
  intros Hraw.
  unfold _reset, set_fields_updated, set_obj, set_data. unfold_monad.
  now rewrite (for_each_reset_dict d) by exact Hraw.
Qed.

Lemma all_False_lookup_None (keys : list string) (k : string) :
  k ∉ keys -> all_False keys !! k = None.
Proof.
  unfold all_False.
  assert (forall acc : gmap string pyval, k ∉ keys -> acc !! k = None ->
            foldl (fun d field_name => <[field_name := VBool false]> d) acc keys
              !! k = None) as H.
  { induction keys as [|a keys IH]; intros acc Hk Hacc; simpl; [exact Hacc|].
    apply not_elem_of_cons in Hk as [Hne Hk].
    apply IH; [exact Hk|]. now rewrite lookup_insert_ne. }
  intros Hk. apply H; [exact Hk | apply lookup_empty].
Qed.

(** X17.  Whatever comes of a refresh, the record then holds as its
    context the context given, or [{}] when the one given is empty or
    [None]; its id and its schema are as they were. *)
Theorem refresh_frame (self : OSV) (ctx : pyval) (st : state) :
  let st' := snd (_refresh server self ctx st) in
  context (__data__ (obj st')) = (if py_truthy ctx then ctx else VDict ∅)
  /\ id (obj st') = id (obj st)
  /\ __osv__ (__class__ (obj st')) = __osv__ (__class__ (obj st)).
Proof.
  simpl. fold (py_or ctx (VDict ∅)).
  destruct (id_truthy (id (obj st))) eqn:Hid.
  - rewrite refresh_id_path by exact Hid.
    destruct (server _ _) as [rows|e]; [|repeat split].
    destruct (py_getitem0 rows) as [raw|e]; [|repeat split].
    destruct (is_False raw); [repeat split|].
    match goal with |- context [_reset self ?s] =>
      destruct (reset_frame self s) as (_ & _ & -> & -> & -> & _) end.
    repeat split.
  - rewrite refresh_draft_path by exact Hid.
    destruct (server _ _) as [dg|e]; [|repeat split].
    destruct (py_dict_update _ dg) as [d|e]; [|repeat split].
    match goal with |- context [_reset self ?s] =>
      destruct (reset_frame self s) as (_ & _ & -> & -> & -> & _) end.
    repeat split.
Qed.

(** X18.  When the server refuses the call of a refresh, the refresh
    raises the server's error as it came, and [raw_data], [fields_updated]
    and the attributes of the record are as they were: local edits are not
    lost. *)
Theorem refresh_server_error (self : OSV) (ctx : pyval) (st : state) (e : exn) :
  server (trace st) (refresh_call self (obj st) ctx) = Raise e ->
  let st' := snd (_refresh server self ctx st) in
  fst (_refresh server self ctx st) = Raise e
  /\ raw_data (__data__ (obj st')) = raw_data (__data__ (obj st))
  /\ fields_updated (__data__ (obj st')) = fields_updated (__data__ (obj st))
  /\ attrs (obj st') = attrs (obj st).
Proof.
  unfold refresh_call. simpl.
  destruct (id_truthy (id (obj st))) eqn:Hid; intros He.
  - rewrite refresh_id_path by exact Hid. rewrite He. repeat split.
  - rewrite refresh_draft_path by exact Hid. rewrite He. repeat split.
Qed.

(** X19.  The refresh of a draft whose [default_get] is answered with a
    dict completes, and [raw_data] then holds, under each name, the default
    the server gave for it, or [False] for a field of the schema that got
    none; a name that is neither has no entry. *)
Theorem refresh_draft_values (self : OSV) (ctx : pyval) (st : state)
    (defaults : gmap string pyval) :
  id_truthy (id (obj st)) = false ->
  server (trace st) (refresh_call self (obj st) ctx) = Ok (VDict defaults) ->
  let st' := snd (_refresh server self ctx st) in
  fst (_refresh server self ctx st) = Ok tt
  /\ exists d : gmap string pyval,
       raw_data (__data__ (obj st')) = VDict d
       /\ forall k : string,
            d !! k =
              match defaults !! k with
              | Some v => Some v
              | None =>
                  if decide (is_Some (columns (__osv__ (__class__ (obj st))) !! k))
                  then Some (VBool false) else None
              end.
Proof.
  unfold refresh_call. intros Hid. rewrite Hid. intros Hs. simpl.
  rewrite refresh_draft_path by exact Hid. rewrite Hs. simpl.
  match goal with |- context [_reset self ?s] =>
    destruct (reset_frame self s) as (_ & Hraw & _);
    pose proof (reset_dict_ok self s _ eq_refl) as Hok end.
  split; [exact Hok|]. eexists. split; [exact Hraw|].
  intros k. rewrite lookup_union.
  destruct (defaults !! k) as [v|] eqn:Hk.
  - now destruct (all_False _ !! k).
  - case_decide as Hc.
    + rewrite all_False_lookup; [reflexivity|]. now apply elem_of_dict_keys.
    + rewrite all_False_lookup_None; [reflexivity|].
      intros Hin. apply Hc. now apply elem_of_dict_keys.
Qed.

(** *** More on browse *)

(** X20.  Browsing a non-zero id whose read is answered with a row that is
    a dict returns a record after exactly that one read: it has the id, the
    row as [raw_data], no dirty name, the schema of the proxy, and as
    attribute [_<name>], for every descriptor whose name is a key of the
    row, the value under that key and nothing for names the loop did not
    load. *)
Theorem browse_loads_row (self : OSV) (ctx : pyval) (tr : list call) (z : Z)
    (rows : pyval) (d : gmap string pyval) :
  z <> 0 ->
  server tr (read_call self (Some z) (py_or ctx (VDict ∅))) = Ok rows ->
  py_getitem0 rows = Ok (VDict d) ->
  exists o : browse_record,
    browse server self (Id (Some z)) ctx tr =
      (Ok (Record_ o),
       (tr ++ [read_call self (Some z) (py_or ctx (VDict ∅))])%list)
    /\ id o = Some z
    /\ raw_data (__data__ o) = VDict d
    /\ fields_updated (__data__ o) = []
    /\ __osv__ (__class__ o) = __osv__ (_browse_class self)
    /\ (forall (f : field) (v : pyval),
          f ∈ dict_values (columns (__osv__ (_browse_class self))) ->
          d !! name f = Some v ->
          attrs o !! private (name f) = Some v)
    /\ (forall a : string,
          (forall f : field,
             f ∈ dict_values (columns (__osv__ (_browse_class self))) ->
             is_Some (d !! name f) -> private (name f) <> a) ->
          attrs o !! a = None).
Proof.
  intros Hz Hs Hrow. simpl.
  rewrite refresh_id_path
    by (simpl; apply negb_true_iff; now apply Z.eqb_neq).
  simpl. rewrite Hs, Hrow. simpl.
  unfold _reset, set_fields_updated, set_obj, set_data. unfold_monad.
  rewrite (for_each_reset_dict d) by reflexivity. simpl.
  eexists. split; [reflexivity|]. simpl.
  repeat split.
  - intros f v Hin Hv. apply load_attrs_lookup; auto.
  - intros a Ha. rewrite load_attrs_other by exact Ha. apply lookup_empty.
Qed.

(** *** More on write *)

(** X21.  The calls of [_write_record]: none when the payload cannot be
    built; else the write, carrying the payload, and, when the server
    accepted it, the one call of the refresh after it, whatever that
    refresh comes to.  With no dirty name the payload is empty and the
    write is sent all the same. *)
Theorem write_record_calls (self : OSV) (ctx : pyval) (st : state) :
  (forall e : exn,
     write_vals self (obj st) (fields_updated (__data__ (obj st))) ∅ = Raise e ->
     trace (snd (_write_record server self ctx st)) = trace st)
  /\ (forall vals : gmap string pyval,
        write_vals self (obj st) (fields_updated (__data__ (obj st))) ∅ = Ok vals ->
        let c := write_call self (id (obj st)) vals ctx in
        trace (snd (_write_record server self ctx st)) =
          match server (trace st) c with
          | Raise _ => (trace st ++ [c])%list
          | Ok _ => (trace st ++ [c; refresh_call self (obj st) ctx])%list
          end)
  /\ (fields_updated (__data__ (obj st)) = [] ->
      write_vals self (obj st) (fields_updated (__data__ (obj st))) ∅ = Ok ∅).
Proof.
  split; [|split].
  - intros e He. unfold _write_record. unfold_monad. now rewrite He.
  - intros vals Hvals c. unfold _write_record. unfold_monad. rewrite Hvals.
    unfold in_world. rewrite call_write_run. fold c.
    destruct (server (trace st) c) as [res|e]; [|reflexivity].
    pose proof (refresh_trace server self ctx
                  {| obj := obj st; trace := (trace st ++ [c])%list |}) as Htr.
    destruct (_refresh _ _ _ _) as [[[]|e] st']; simpl in *;
      rewrite Htr, <- app_assoc; reflexivity.
  - intros ->. reflexivity.
Qed.

Lemma write_vals_ok_acc (self : OSV) (o : browse_record) (names : list string) :
  forall acc : gmap string pyval,
    (exists payload, write_vals self o names acc = Ok payload)
    <-> (forall k : string,
           k ∈ names -> exists ov, write_value self o k = Ok ov).
Proof.
  induction names as [|a names IH]; intros acc; simpl.
  - split; [intros _ k Hk; inversion Hk | eauto].
  - destruct (write_value self o a) as [[v|]|e] eqn:Ha.
    + rewrite IH. split.
      * intros H k Hk. apply elem_of_cons in Hk as [->|Hk]; eauto.
      * intros H k Hk. apply H. apply elem_of_cons. now right.
    + rewrite IH. split.
      * intros H k Hk. apply elem_of_cons in Hk as [->|Hk]; eauto.
      * intros H k Hk. apply H. apply elem_of_cons. now right.
    + split.
      * intros [payload Hp]. discriminate.
      * intros H. destruct (H a) as [ov Hov]; [apply elem_of_cons; now left|].
        congruence.
Qed.

(** X22.  The payload of [_write_record] gets built exactly when every
    dirty name yields a value or is passed over; when one of them raises
    (a name without a descriptor, a value never loaded, a reference value
    that cannot be indexed), [_write_record] raises with nothing sent and
    the record as it was. *)
Theorem write_record_all_or_nothing (self : OSV) (ctx : pyval) (st : state) :
  ((exists payload : gmap string pyval,
      write_vals self (obj st) (fields_updated (__data__ (obj st))) ∅
        = Ok payload)
   <-> (forall k : string,
          k ∈ fields_updated (__data__ (obj st)) ->
          exists ov, write_value self (obj st) k = Ok ov))
  /\ (forall (k : string) (e0 : exn),
        k ∈ fields_updated (__data__ (obj st)) ->
        write_value self (obj st) k = Raise e0 ->
        exists e : exn, _write_record server self ctx st = (Raise e, st)).
Proof.
  split; [apply write_vals_ok_acc|].
  intros k e0 Hk He0. unfold _write_record. unfold_monad.
  destruct (write_vals self (obj st) (fields_updated (__data__ (obj st))) ∅)
    as [payload|e] eqn:Hv; [|eauto].
  exfalso.
  destruct (proj1 (write_vals_ok_acc self (obj st) _ ∅) (ex_intro _ _ Hv) k Hk)
    as [ov Hov].
  congruence.
Qed.

(** X23.  What goes in the payload for a dirty name that is known to
    [raw_data] and has a descriptor and a value: for a descriptor that is
    not reference-single, the value as it is; for a reference-single one
    whose value is empty (no relation), that value as it is; for one whose
    value is not empty, its first element. *)
Theorem write_vals_value (self : OSV) (o : browse_record)
    (names : list string) (payload : gmap string pyval) (k : string)
    (f : field) (v : pyval) :
  write_vals self o names ∅ = Ok payload ->
  k ∈ names ->
  py_contains k (raw_data (__data__ o)) = Ok true ->
  columns (__osv__ (_browse_class self)) !! k = Some f ->
  attrs o !! private k = Some v ->
  (kind f <> Many2OneField -> payload !! k = Some v)
  /\ (kind f = Many2OneField -> py_truthy v = false -> payload !! k = Some v)
  /\ (kind f = Many2OneField -> py_truthy v = true ->
      exists x : pyval, py_getitem0 v = Ok x /\ payload !! k = Some x).
Proof.
  intros Hrun Hk Hin Hf Hval.
  destruct (write_vals_lookup self o names _ _ k Hrun) as [_ H].
  destruct (H Hk) as [(x & Hx & Hp)|[Hn _]];
    unfold write_value in *; rewrite Hin, Hf, Hval in *.
  - split; [|split].
    + intros Hkind. rewrite decide_False in Hx by exact Hkind. congruence.
    + intros Hkind Ht. rewrite decide_True in Hx by exact Hkind.
      unfold py_and_getitem0 in Hx. rewrite Ht in Hx. congruence.
    + intros Hkind Ht. rewrite decide_True in Hx by exact Hkind.
      unfold py_and_getitem0 in Hx. rewrite Ht in Hx.
      destruct (py_getitem0 v) as [y|e]; [|discriminate].
      exists y. split; [reflexivity|congruence].
  - exfalso. case_decide; [|discriminate].
    destruct (py_and_getitem0 v); discriminate.
Qed.

(** *** More on schema introspection *)

Section GenerationMore.

Variable classify : string -> option field_kind.

Lemma replace_no_dot (s : string) :
  is_substring "." (replace_char "."%char "_"%char s) = false.
Proof.
  induction s as [|c s IH]; [reflexivity|].
  cbn [replace_char is_substring]. rewrite IH, orb_false_r.
  cbn [is_prefix]. rewrite andb_true_r.
  destruct (Ascii.eqb c ".") eqn:Hc.
  - reflexivity.
  - rewrite Ascii.eqb_sym. exact Hc.
Qed.

(** [_generate_browse_class], step by step. *)
Lemma generate_browse_class_run (oerp_ : oerp) (name_ : string)
    (tr : list call) :
  _generate_browse_class server classify oerp_ name_ tr =
    (match server tr (Execute name_ "fields_get" []) with
     | Raise e => Raise e
     | Ok (VDict d) =>
         match generate_fields classify (dict_items d) ∅ with
         | Raise e => Raise e
         | Ok m =>
             match (if negb (bool_decide (is_Some (m !! "name"))) then
                      match generate_field classify "name" name_field_data with
                      | Ok f => Ok (<["name" := f]> m)
                      | Raise e => Raise e
                      end
                    else Ok m) with
             | Raise e => Raise e
             | Ok cls_fields =>
                 Ok {| cls_name := replace_char "."%char "_"%char name_;
                       __oerp__ := oerp_;
                       __osv__ := {| osv_name := name_; columns := cls_fields |};
                       __slots__ :=
                         (["__oerp__"; "__osv__"; "__dict__"; "__data__"]
                            ++ dict_keys cls_fields)%list;
                       descriptors := ∅ |}
             end
         end
     | Ok _ => Raise (AttributeError "items")
     end,
     (tr ++ [Execute name_ "fields_get" []])%list).
Proof.
  unfold _generate_browse_class, execute. unfold_monad.
  destruct (server tr _) as [v|e]; [|reflexivity].
  destruct v as [| | | | |d]; try reflexivity.
  cbv beta iota.
  destruct (generate_fields classify (dict_items d) ∅) as [m|e];
    [|reflexivity].
  cbv beta iota.
  destruct (negb (bool_decide (is_Some (m !! "name")))); [|reflexivity].
  destruct (generate_field classify "name" name_field_data); reflexivity.
Qed.

(** X24.  Building a proxy sends exactly one call, [fields_get] on the
    entity, whether it succeeds or not.  A server error is raised as it
    came, and an answer that is not a dict raises [AttributeError].  A proxy
    that is built keeps the connection and the entity name, its class
    carries them too, and the name of the class is the entity name with
    every dot replaced, so it has none. *)
Theorem init_one_call (oerp_ : oerp) (osv_name_ : string) (tr : list call) :
  let c := Execute osv_name_ "fields_get" [] in
  let r := __init__ server classify oerp_ osv_name_ tr in
  snd r = (tr ++ [c])%list
  /\ (forall e : exn, server tr c = Raise e -> fst r = Raise e)
  /\ (forall v : pyval,
        server tr c = Ok v ->
        (forall d : gmap string pyval, v <> VDict d) ->
        fst r = Raise (AttributeError "items"))
  /\ (forall self : OSV,
        fst r = Ok self ->
        _oerp self = oerp_
        /\ _name self = osv_name_
        /\ __oerp__ (_browse_class self) = oerp_
        /\ osv_name (__osv__ (_browse_class self)) = osv_name_
        /\ cls_name (_browse_class self)
           = replace_char "."%char "_"%char osv_name_
        /\ is_substring "." (cls_name (_browse_class self)) = false
        /\ descriptors (_browse_class self) = ∅).
Proof.
  intros c r. subst c r. unfold __init__, bind, ret.
  rewrite generate_browse_class_run.
  destruct (server tr (Execute osv_name_ "fields_get" [])) as [v|e] eqn:Hs.
  - assert (forall (A : Type) (x : result A) (w : pyval),
              Ok v = Ok w -> (forall d, w <> VDict d) ->
              (forall d, v = VDict d -> False)) as Hnd.
    { intros A x w [= <-] Hd d ->. now apply (Hd d). }
    destruct v as [| | | | |d];
      try (cbn [fst snd]; repeat split; try discriminate; reflexivity).
    destruct (generate_fields classify (dict_items d) ∅) as [m|e].
    + destruct (if negb (bool_decide (is_Some (m !! "name"))) then _ else _)
        as [cf|e].
      * cbn [fst snd]. split; [reflexivity|]. split; [discriminate|].
        split; [intros w Hw Hd; exfalso; injection Hw as <-; now apply (Hd d)|].
        intros self [= <-]. cbn. repeat split. apply replace_no_dot.
      * cbn [fst snd]. split; [reflexivity|]. split; [discriminate|].
        split; [intros w Hw Hd; exfalso; injection Hw as <-; now apply (Hd d)|].
        discriminate.
    + cbn [fst snd]. split; [reflexivity|]. split; [discriminate|].
      split; [intros w Hw Hd; exfalso; injection Hw as <-; now apply (Hd d)|].
      discriminate.
  - cbn [fst snd]. split; [reflexivity|]. split; [now intros e' [= <-]|].
    split; discriminate.
Qed.

Lemma generate_fields_complete (items : list (string * pyval)) :
  forall (acc m : gmap string field) (k : string),
    generate_fields classify items acc = Ok m ->
    is_Some (acc !! k)
    \/ ((k ∉ fields_reserved) /\ (exists data : pyval, (k, data) ∈ items)) ->
    is_Some (m !! k).
Proof.
  induction items as [|[a data] items IH]; intros acc m k; simpl.
  - intros [= <-] [H|(_ & x & Hx)]; [exact H | inversion Hx].
  - case_bool_decide as Hres.
    + intros Hrun [H|(Hk & x & Hx)]; apply (IH _ _ _ Hrun); [now left|].
      apply elem_of_cons in Hx as [[= -> ->]|Hx]; [contradiction|].
      right. eauto.
    + destruct (generate_field classify a data) as [fa|e]; [|discriminate].
      intros Hrun [[f H]|(Hk & x & Hx)]; apply (IH _ _ _ Hrun).
      * left. destruct (decide (a = k)) as [->|Hne].
        -- rewrite lookup_insert_eq. eauto.
        -- rewrite lookup_insert_ne by exact Hne. eauto.
      * apply elem_of_cons in Hx as [[= -> ->]|Hx].
        -- left. rewrite lookup_insert_eq. eauto.
        -- right. eauto.
Qed.

(** X25.  The columns of a record class that [_generate_browse_class]
    returns are exactly the fields of the schema the server sent that are
    not reserved, and [name]; its [__slots__] are the four fixed names and
    then the names of the columns. *)
Theorem generate_browse_class_keys (oerp_ : oerp) (name_ : string)
    (tr tr' : list call) (cls : browse_class) (d : gmap string pyval) :
  _generate_browse_class server classify oerp_ name_ tr = (Ok cls, tr') ->
  server tr (Execute name_ "fields_get" []) = Ok (VDict d) ->
  (forall k : string,
     is_Some (columns (__osv__ cls) !! k)
     <-> k = "name" \/ (is_Some (d !! k) /\ (k ∉ fields_reserved)))
  /\ __slots__ cls =
       (["__oerp__"; "__osv__"; "__dict__"; "__data__"]
          ++ dict_keys (columns (__osv__ cls)))%list.
Proof.
  intros Hrun Hs. rewrite generate_browse_class_run, Hs in Hrun.
  destruct (generate_fields classify (dict_items d) ∅) as [m|e] eqn:Hm;
    [|discriminate].
  assert (forall k, is_Some (m !! k)
            <-> (is_Some (d !! k) /\ (k ∉ fields_reserved))) as Hkeys.
  { intros k. split.
    - intros [f Hf].
      destruct (generate_fields_lookup classify _ _ _ _ _ Hm Hf)
        as [Hacc|(Hk & data & Hin & _)];
        [now rewrite lookup_empty in Hacc|].
      apply elem_of_map_to_list in Hin. split; eauto.
    - intros [[data Hd] Hk].
      apply (generate_fields_complete _ _ _ _ Hm). right.
      split; [exact Hk|]. exists data. now apply elem_of_map_to_list. }
  revert Hrun. case_bool_decide as Hin; cbn [negb].
  - intros [= <- <-]. cbn. split; [|reflexivity].
    intros k. rewrite Hkeys. split; [now right|].
    intros [->|H]; [|exact H]. now apply Hkeys.
  - destruct (generate_field classify "name" name_field_data) as [f|e];
      [|discriminate].
    intros [= <- <-]. cbn. split; [|reflexivity].
    intros k. destruct (decide ("name" = k)) as [<-|Hne].
    + rewrite lookup_insert_eq. split; [now left | eauto].
    + rewrite lookup_insert_ne by exact Hne. rewrite Hkeys.
      split; [now right|]. intros [->|H]; [contradiction | exact H].
Qed.

End GenerationMore.

End OsvMore.

(** ** More of the properties on the concrete entity *)

Section MoreOnFixtures.
Import Osv Fixtures.

(** The descriptors of the fixtures, in the order the loops meet them. *)
Lemma partner_fields :
  dict_values partner_columns = [name_field; partner_id_field].
Proof. vm_compute. reflexivity. Qed.

Lemma partner_row_no_name : partner_row_dict !! "name" = None.
Proof. vm_compute. reflexivity. Qed.

(** The witness of [get_failure_leaves_pool]: an entity the server does
    not know. *)
Lemma get_failure_leaves_pool_witness :
  introspection "no.such.model"
    = Some (RPCError "Object no.such.model doesn't exist")
  /\ Pool.get introspection "no.such.model" false partner_pool =
       (Raise (RPCError "Object no.such.model doesn't exist"), partner_pool).
Proof.
  assert (H : introspection "no.such.model"
              = Some (RPCError "Object no.such.model doesn't exist"))
    by reflexivity.
  split; [exact H|].
  apply (get_failure_leaves_pool introspection partner_pool "no.such.model"
           false _ H).
  left. reflexivity.
Defined.

(** The witness of [get_new_name_registers_both]: a second entity asked
    of the pool that holds [res.partner]. *)
Lemma get_new_name_registers_both_witness :
  let p' := snd (Pool.get introspection "res.users" false partner_pool) in
  Pool._factories_by_osv_name partner_pool !! "res.users" = None
  /\ introspection "res.users" = None
  /\ fst (Pool.get introspection "res.users" false partner_pool) = Ok 3%nat
  /\ Pool.get_by_class 2%nat p' = (Ok 3%nat, p')
  /\ Pool._factories_by_osv_name p' !! "res.partner" = Some 1%nat.
Proof.
  intros p'.
  assert (H1 : Pool._factories_by_osv_name partner_pool !! "res.users" = None)
    by reflexivity.
  assert (H2 : introspection "res.users" = None) by reflexivity.
  destruct (get_new_name_registers_both introspection partner_pool "res.users"
              false H1 H2) as (Hr & _ & Hc & _ & Hother & _).
  split; [exact H1|]. split; [exact H2|]. split; [exact Hr|].
  split; [exact Hc|].
  fold p' in Hother. rewrite Hother by discriminate. reflexivity.
Defined.

(** The witness of [delitem_missing]: the empty pool. *)
Lemma delitem_missing_witness :
  Pool._factories_by_osv_name Pool.init !! "res.partner" = None
  /\ Pool.__delitem__ "res.partner" Pool.init
     = (Raise (KeyError "res.partner"), Pool.init).
Proof.
  assert (H : Pool._factories_by_osv_name Pool.init !! "res.partner" = None)
    by reflexivity.
  split; [exact H|]. exact (delitem_missing Pool.init "res.partner" H).
Defined.

(** The witness of [pool_inv_kept]: the empty pool has the invariant, and
    so has the pool after a [get]. *)
Lemma pool_inv_kept_witness :
  Pool.pool_inv Pool.init /\ Pool.pool_inv partner_pool.
Proof.
  split; [exact pool_inv_init|].
  exact (proj1 (pool_inv_kept introspection Pool.init "res.partner" false
                  pool_inv_init)).
Defined.

(** The witness of [delitem_then_get]: [res.partner] deleted and asked
    for again. *)
Lemma delitem_then_get_witness :
  let p1 := snd (Pool.__delitem__ "res.partner" partner_pool) in
  let p2 := snd (Pool.get introspection "res.partner" false p1) in
  Pool.pool_inv partner_pool
  /\ Pool._factories_by_osv_name partner_pool !! "res.partner" = Some 1%nat
  /\ introspection "res.partner" = None
  /\ fst (Pool.get introspection "res.partner" false p1) = Ok 3%nat
  /\ Pool.get_by_class 0%nat p2 = (Ok 1%nat, p2)
  /\ Pool.get_by_class 2%nat p2 = (Ok 3%nat, p2).
Proof.
  intros p1 p2.
  assert (H0 : Pool.pool_inv partner_pool)
    by exact (pool_inv_get introspection Pool.init "res.partner" false
                pool_inv_init).
  assert (H1 : Pool._factories_by_osv_name partner_pool !! "res.partner"
               = Some 1%nat) by reflexivity.
  assert (H2 : introspection "res.partner" = None) by reflexivity.
  destruct (delitem_then_get introspection partner_pool "res.partner" 1%nat
              H0 H1 H2) as (Hr & _ & _ & Hnew & Hold).
  split; [exact H0|]. split; [exact H1|]. split; [exact H2|].
  split; [exact Hr|]. split; [|exact Hnew].
  apply Hold. reflexivity.
Defined.

(** The witness of [rpc_method_standard]: [search] forwarded with no
    keyword argument while [auto_context] is set. *)
Lemma rpc_method_standard_witness :
  let self := partner_osv std_oerp in
  compatible (_oerp self) = false
  /\ exists kwargs' : gmap string pyval,
       rpc_method server_live self "search" [VList []] ∅ [] =
         (Ok (VBool true),
          [ExecuteKw "res.partner" "search" [VList []] kwargs'])
       /\ kwargs' !! "context" = Some (VDict ∅).
Proof.
  intros self.
  assert (H : compatible (_oerp self) = false) by reflexivity.
  split; [exact H|].
  destruct (rpc_method_standard server_live self "search" [VList []] ∅ [] H)
    as (kwargs' & Hrun & _ & Hctx).
  exists kwargs'. split; [exact Hrun | exact Hctx].
Defined.

(** The witness of [reset_loads_fields]: the dirty record is reset, and
    [partner_id] is again what the server sent. *)
Lemma reset_loads_fields_witness :
  let self := partner_osv std_oerp in
  let st := dirty_state std_oerp in
  raw_data (__data__ (obj st)) = VDict partner_row_dict
  /\ attrs (obj st) !! "_partner_id" = Some (VList [VInt 9; VStr "Other"])
  /\ fst (_reset self st) = Ok tt
  /\ attrs (obj (snd (_reset self st))) !! "_partner_id"
     = Some (VList [VInt 7; VStr "Acme Corp"]).
Proof.
  intros self st.
  assert (H : raw_data (__data__ (obj st)) = VDict partner_row_dict)
    by reflexivity.
  destruct (reset_loads_fields self st partner_row_dict H) as (Hok & Hload & _).
  split; [exact H|]. split; [reflexivity|]. split; [exact Hok|].
  apply (Hload partner_id_field (VList [VInt 7; VStr "Acme Corp"])).
  - change (columns (__osv__ (_browse_class self))) with partner_columns.
    rewrite partner_fields. apply elem_of_cons. right.
    apply elem_of_cons. now left.
  - reflexivity.
Defined.

(** The witness of [reset_not_iterable_raises]: the record that a refresh
    found gone. *)
Lemma reset_not_iterable_raises_witness :
  let self := partner_osv std_oerp in
  let st := {| obj := gone_record std_oerp; trace := [] |} in
  not_iterable (raw_data (__data__ (obj st))) = true
  /\ fst (_reset self st) = Raise TypeError
  /\ _write_record server_live self VNone st = (Raise TypeError, st).
Proof.
  intros self st.
  assert (H : not_iterable (raw_data (__data__ (obj st))) = true)
    by reflexivity.
  destruct (reset_not_iterable_raises server_live self VNone st H)
    as (Hreset & Hwrite).
  split; [exact H|]. split.
  - apply Hreset. apply insert_non_empty.
  - apply Hwrite. discriminate.
Defined.

(** The witness of [refresh_server_error]: the dirty record refreshed
    while the server cannot be reached. *)
Lemma refresh_server_error_witness :
  let self := partner_osv std_oerp in
  let st := dirty_state std_oerp in
  server_down (trace st) (refresh_call self (obj st) VNone)
    = Raise (RPCError "Connection refused")
  /\ fst (_refresh server_down self VNone st)
     = Raise (RPCError "Connection refused")
  /\ fields_updated (__data__ (obj (snd (_refresh server_down self VNone st))))
     = ["partner_id"].
Proof.
  intros self st.
  assert (H : server_down (trace st) (refresh_call self (obj st) VNone)
              = Raise (RPCError "Connection refused")) by reflexivity.
  destruct (refresh_server_error server_down self VNone st _ H)
    as (Hr & _ & Hfu & _).
  split; [exact H|]. split; [exact Hr|]. exact Hfu.
Defined.

(** The witness of [refresh_draft_values]: a draft whose server gives a
    default for [partner_id] only. *)
Lemma refresh_draft_values_witness :
  let self := partner_osv compat_oerp in
  let st := fresh_state compat_oerp None in
  let defaults : gmap string pyval :=
    <["partner_id" := VList [VInt 7; VStr "Acme Corp"]]> ∅ in
  id_truthy (id (obj st)) = false
  /\ server_defaults (trace st) (refresh_call self (obj st) VNone)
     = Ok (VDict defaults)
  /\ fst (_refresh server_defaults self VNone st) = Ok tt
  /\ raw_data (__data__ (obj (snd (_refresh server_defaults self VNone st))))
     = VDict (<["name" := VBool false]> defaults).
Proof.
  intros self st defaults.
  assert (H1 : id_truthy (id (obj st)) = false) by reflexivity.
  assert (H2 : server_defaults (trace st) (refresh_call self (obj st) VNone)
               = Ok (VDict defaults)) by reflexivity.
  destruct (refresh_draft_values server_defaults self VNone st defaults H1 H2)
    as (Hok & _).
  split; [exact H1|]. split; [exact H2|]. split; [exact Hok|].
  vm_compute. reflexivity.
Defined.

(** The witness of [browse_loads_row]: record 42 browsed. *)
Lemma browse_loads_row_witness :
  let self := partner_osv std_oerp in
  42 <> 0
  /\ server_live [] (read_call self (Some 42) (py_or VNone (VDict ∅)))
     = Ok (VList [partner_row])
  /\ py_getitem0 (VList [partner_row]) = Ok (VDict partner_row_dict)
  /\ exists o : browse_record,
       fst (browse server_live self (Id (Some 42)) VNone []) = Ok (Record_ o)
       /\ attrs o !! "_partner_id" = Some (VList [VInt 7; VStr "Acme Corp"])
       /\ attrs o !! "_name" = None.
Proof.
  intros self.
  assert (H1 : 42 <> 0) by lia.
  assert (H2 : server_live [] (read_call self (Some 42) (py_or VNone (VDict ∅)))
               = Ok (VList [partner_row])) by reflexivity.
  assert (H3 : py_getitem0 (VList [partner_row]) = Ok (VDict partner_row_dict))
    by reflexivity.
  destruct (browse_loads_row server_live self VNone [] 42 _ _ H1 H2 H3)
    as (o & Hrun & _ & _ & _ & _ & Hload & Hrest).
  split; [exact H1|]. split; [exact H2|]. split; [exact H3|].
  exists o. split; [now rewrite Hrun|].
  change (columns (__osv__ (_browse_class self))) with partner_columns
    in Hload, Hrest.
  rewrite partner_fields in Hload, Hrest.
  split.
  - apply (Hload partner_id_field); [|reflexivity].
    apply elem_of_cons. right. apply elem_of_cons. now left.
  - apply Hrest. intros f Hf [x Hx].
    apply elem_of_cons in Hf as [->|Hf].
    + change (name name_field) with "name" in Hx.
      rewrite partner_row_no_name in Hx. discriminate.
    + apply elem_of_cons in Hf as [->|Hf]; [discriminate | inversion Hf].
Defined.

(** The witness of [write_vals_value]: the edited [partner_id], a
    reference-single value that is not empty. *)
Lemma write_vals_value_witness :
  let self := partner_osv std_oerp in
  let o := dirty_record std_oerp in
  let payload : gmap string pyval := <["partner_id" := VInt 9]> ∅ in
  write_vals self o ["partner_id"] ∅ = Ok payload
  /\ "partner_id" ∈ ["partner_id"]
  /\ py_contains "partner_id" (raw_data (__data__ o)) = Ok true
  /\ columns (__osv__ (_browse_class self)) !! "partner_id" = Some partner_id_field
  /\ attrs o !! private "partner_id" = Some (VList [VInt 9; VStr "Other"])
  /\ exists x : pyval,
       py_getitem0 (VList [VInt 9; VStr "Other"]) = Ok x
       /\ payload !! "partner_id" = Some x.
Proof.
  intros self o payload.
  assert (H1 : write_vals self o ["partner_id"] ∅ = Ok payload) by reflexivity.
  assert (H2 : "partner_id" ∈ ["partner_id"]) by (apply elem_of_cons; now left).
  assert (H3 : py_contains "partner_id" (raw_data (__data__ o)) = Ok true)
    by reflexivity.
  assert (H4 : columns (__osv__ (_browse_class self)) !! "partner_id"
               = Some partner_id_field) by reflexivity.
  assert (H5 : attrs o !! private "partner_id"
               = Some (VList [VInt 9; VStr "Other"])) by reflexivity.
  repeat (split; [assumption|]).
  destruct (write_vals_value self o _ payload "partner_id" partner_id_field
              _ H1 H2 H3 H4 H5) as (_ & _ & Hm2o).
  apply Hm2o; reflexivity.
Defined.

(** The witness of [generate_browse_class_keys]: the class generated
    from the schema of the fixtures. *)
Lemma generate_browse_class_keys_witness :
  let cls := partner_class std_oerp in
  _generate_browse_class server_live classify std_oerp "res.partner" [] =
    (Ok cls, [Execute "res.partner" "fields_get" []])
  /\ server_live [] (Execute "res.partner" "fields_get" [])
     = Ok (VDict partner_schema)
  /\ is_Some (columns (__osv__ cls) !! "partner_id")
  /\ ~ is_Some (columns (__osv__ cls) !! "id").
Proof.
  intros cls.
  assert (H1 : _generate_browse_class server_live classify std_oerp
                 "res.partner" [] =
               (Ok cls, [Execute "res.partner" "fields_get" []]))
    by (vm_compute; reflexivity).
  assert (H2 : server_live [] (Execute "res.partner" "fields_get" [])
               = Ok (VDict partner_schema)) by reflexivity.
  destruct (generate_browse_class_keys server_live classify std_oerp
              "res.partner" [] _ cls partner_schema H1 H2) as [Hkeys _].
  split; [exact H1|]. split; [exact H2|]. split.
  - apply Hkeys. right. split; [vm_compute; eauto|].
    unfold fields_reserved. intros Hin.
    repeat (apply elem_of_cons in Hin as [Hin|Hin]; [discriminate|]).
    inversion Hin.
  - intros Hid. apply Hkeys in Hid as [Hid|[_ Hid]]; [discriminate|].
    apply Hid. apply elem_of_cons. now left.
Defined.

End MoreOnFixtures.
